(** * age-keygen-gui: the key-generation worker and the window's key actions

    A shallow embedding of [age_keygen_gui.py]: the string operations the
    worker relies on, [KeyGenerationWorker.run] with the signals it emits and
    the child processes it starts, and the slots of [AgeKeyGeneratorWindow]
    that consume those signals or export a displayed key.

    Python strings are sequences of code points.  Here a string is a
    [String.string], each character standing for the code point of the same
    number, so the model covers the code points below 256; the line
    boundaries of [str.splitlines], the white space of [str.strip] and the
    case mapping of [str.lower] are Python's, restricted to that range. *)

From Stdlib Require Import ZArith Ascii String List Bool Lia.
From stdpp Require Import base option gmap strings.
Import ListNotations.

Local Open Scope string_scope.
Local Open Scope list_scope.

(** ** Python string operations *)

Module Py.

(** [str.isspace] on one code point: 9-13, 28-32, 0x85 and 0xA0. *)
Definition isspace (c : ascii) : bool :=
  let n := nat_of_ascii c in
  (((9 <=? n) && (n <=? 13)) || ((28 <=? n) && (n <=? 32))
   || (n =? 133) || (n =? 160))%nat.

(** The line boundaries [str.splitlines] splits at: LF, VT, FF, CR, FS, GS,
    RS and NEL (CR LF counts once). *)
Definition is_linebreak (c : ascii) : bool :=
  let n := nat_of_ascii c in
  (((10 <=? n) && (n <=? 13)) || ((28 <=? n) && (n <=? 30)) || (n =? 133))%nat.

Definition is_cr (c : ascii) : bool := (nat_of_ascii c =? 13)%nat.
Definition is_lf (c : ascii) : bool := (nat_of_ascii c =? 10)%nat.

(** [s.splitlines()]: the lines without their boundaries; no empty last
    line after a final boundary.  [after_cr] tells that the character just
    read was a CR, whose following LF belongs to the same boundary. *)
Fixpoint splitlines_from (after_cr : bool) (s : string) : list string :=
  match s with
  | EmptyString => []
  | String c s' =>
      if after_cr && is_lf c then splitlines_from false s'
      else if is_linebreak c then EmptyString :: splitlines_from (is_cr c) s'
      else match splitlines_from false s' with
           | [] => [String c EmptyString]
           | l :: ls => String c l :: ls
           end
  end.

Definition splitlines (s : string) : list string := splitlines_from false s.

(** [s.lstrip()], [s.rstrip()] and [s.strip()] without argument. *)
Fixpoint lstrip (s : string) : string :=
  match s with
  | EmptyString => EmptyString
  | String c s' => if isspace c then lstrip s' else s
  end.

Fixpoint rstrip (s : string) : string :=
  match s with
  | EmptyString => EmptyString
  | String c s' =>
      match rstrip s' with
      | EmptyString => if isspace c then EmptyString else String c EmptyString
      | r => String c r
      end
  end.

Definition strip (s : string) : string := rstrip (lstrip s).

(** [s.startswith(p)]. *)
Definition startswith (s p : string) : bool := String.prefix p s.

(** [s.endswith(p)]. *)
Definition endswith (s p : string) : bool :=
  String.prefix (String.rev p) (String.rev s).

(** [s.replace(old, new)] for a non-empty [old]: the occurrences of [old]
    are found from the left and do not overlap.  [skip] counts the
    characters of the occurrence just found that are still to be passed. *)
Fixpoint replace_from (old new : string) (skip : nat) (s : string) : string :=
  match s with
  | EmptyString => EmptyString
  | String c s' =>
      match skip with
      | S k => replace_from old new k s'
      | O =>
          if String.prefix old s
          then new +:+ replace_from old new (String.length old - 1) s'
          else String c (replace_from old new 0 s')
      end
  end.

Definition replace (s old new : string) : string := replace_from old new 0 s.

(** [s.lower()]: A-Z and the Latin-1 capitals 0xC0-0xDE apart from the
    multiplication sign 0xD7 move up by 32. *)
Definition lower_char (c : ascii) : ascii :=
  let n := nat_of_ascii c in
  if (((65 <=? n) && (n <=? 90))
      || ((192 <=? n) && (n <=? 222) && negb (n =? 215)))%nat
  then ascii_of_nat (n + 32) else c.

Fixpoint lower (s : string) : string :=
  match s with
  | EmptyString => EmptyString
  | String c s' => String (lower_char c) (lower s')
  end.

(** [s.encode('utf-8')], the bytes given by their numbers: one byte below
    128, two bytes from 128 to 255. *)
Fixpoint encode_utf8 (s : string) : string :=
  match s with
  | EmptyString => EmptyString
  | String c s' =>
      let n := nat_of_ascii c in
      if (n <? 128)%nat then String c (encode_utf8 s')
      else String (ascii_of_nat (192 + n / 64))
             (String (ascii_of_nat (128 + n mod 64)) (encode_utf8 s'))
  end.

(** [s[n:]]. *)
Fixpoint slice_from (n : nat) (s : string) : string :=
  match n, s with
  | O, _ => s
  | S k, EmptyString => EmptyString
  | S k, String _ s' => slice_from k s'
  end.

(** [sub in s]. *)
Fixpoint contains (s sub : string) : bool :=
  String.prefix sub s
  || match s with
     | EmptyString => false
     | String _ s' => contains s' sub
     end.

(** Truth value of a string: [not s] holds of the empty string only. *)
Definition is_empty (s : string) : bool :=
  match s with EmptyString => true | _ => false end.

(** [a or b] on strings. *)
Definition or_else (a b : string) : string := if is_empty a then b else a.

End Py.

(** The line feed. *)
Definition LF : string := String (ascii_of_nat 10) "".

(** ** Signals, child processes and the worker's monad *)

(** The four signals of [KeyGenerationWorker]. *)
Inductive signal : Type :=
| started
| progress (message : string)
| finished (private_key public_key error : string)
| error (message : string).

(** The [input=] argument of [subprocess.run]: absent, a [str] or a
    [bytes] object (given by its characters). *)
Inductive py_input : Type :=
| NoInput
| StrInput (s : string)
| BytesInput (b : string).

(** One call [subprocess.run(argv, input=..., capture_output=True,
    text=True, timeout=..., check=True)]; the three constant keyword
    arguments are the same at both call sites. *)
Record Request : Type := {
  argv : list string;
  input : py_input;
  timeout : Z
}.

(** What a started child does, seen from the caller: it exits with a
    status and the text of its two output streams, or it is still running
    when the caller's timeout has passed. *)
Inductive completion : Type :=
| Exited (returncode : Z) (out err : string)
| Overrun.

(** The world outside the program: whether a command line can be started
    at all ([Some msg]: [Popen] raises an [OSError] that prints as [msg]),
    and what the child does given the text it is fed on standard input. *)
Record Env : Type := {
  start_error : list string -> option string;
  child : list string -> option string -> completion
}.

(** The exceptions [run] tells apart; [OtherError] carries [str(e)]. *)
Inductive exn : Type :=
| TimeoutExpired
| CalledProcessError (returncode : Z) (stdout stderr : string)
| OtherError (str_e : string).

Record CompletedProcess : Type := {
  returncode : Z;
  stdout : string;
  stderr : string
}.

(** What a run does, in order. *)
Inductive action : Type :=
| Emit (s : signal)
| Call (r : Request)
| Spawn (command : list string)
| Feed (data : string)
| Kill.

Inductive outcome (A : Type) : Type :=
| Returned (a : A)
| Raised (e : exn).
Arguments Returned {A} a.
Arguments Raised {A} e.

(** Computations that append to the log of actions and may raise. *)
Definition M (A : Type) : Type := list action -> outcome A * list action.

Definition ret {A} (a : A) : M A := fun log => (Returned a, log).

Definition bind {A B} (m : M A) (k : A -> M B) : M B :=
  fun log =>
    match m log with
    | (Returned a, log') => k a log'
    | (Raised e, log') => (Raised e, log')
    end.

Definition raise {A} (e : exn) : M A := fun log => (Raised e, log).

Definition try_except {A} (body : M A) (handler : exn -> M A) : M A :=
  fun log =>
    match body log with
    | (Returned a, log') => (Returned a, log')
    | (Raised e, log') => handler e log'
    end.

Definition act (a : action) : M unit := fun log => (Returned tt, log ++ [a]).

Definition emit (s : signal) : M unit := act (Emit s).

Notation "x <- m ;; k" := (bind m (fun x => k))
  (at level 100, m at next level, right associativity).
Notation "m ;; k" := (bind m (fun _ => k))
  (at level 100, right associativity).

(** [subprocess.run] in text mode with [check=True], as CPython's
    [subprocess.py] has it.  [Popen] creates the child or raises.
    [Popen.communicate] then prepares the input: in text mode
    [_save_input] calls [input.encode(...)], which a [bytes] object does
    not have, so the call raises [AttributeError] ('bytes' object has no
    attribute 'encode') before anything is written; on Windows
    [_stdin_write] hands the bytes to a text stream, which raises
    [TypeError] at the same point.  [subprocess.run] kills the child on
    its way out.  Otherwise the input is written, the child is awaited,
    killed when the timeout passes, and a non-zero status raises
    [CalledProcessError]. *)
Definition subprocess_run (env : Env) (r : Request) : M CompletedProcess :=
  act (Call r) ;;
  match start_error env (argv r) with
  | Some msg => raise (OtherError msg)
  | None =>
      act (Spawn (argv r)) ;;
      fed <- match input r with
             | NoInput => ret None
             | StrInput s => (act (Feed s) ;; ret (Some s))
             | BytesInput _ =>
                 (act Kill ;;
                  raise (OtherError "'bytes' object has no attribute 'encode'"))
             end ;;
      match child env (argv r) fed with
      | Overrun => (act Kill ;; raise TimeoutExpired)
      | Exited rc out err =>
          if (rc =? 0)%Z
          then ret {| returncode := rc; stdout := out; stderr := err |}
          else raise (CalledProcessError rc out err)
      end
  end.

(** The signals of a log, in order, and the command lines started. *)
Fixpoint signals (log : list action) : list signal :=
  match log with
  | [] => []
  | Emit s :: log' => s :: signals log'
  | _ :: log' => signals log'
  end.

Fixpoint spawned (log : list action) : list (list string) :=
  match log with
  | [] => []
  | Spawn c :: log' => c :: spawned log'
  | _ :: log' => spawned log'
  end.

Fixpoint fed (log : list action) : list string :=
  match log with
  | [] => []
  | Feed d :: log' => d :: fed log'
  | _ :: log' => fed log'
  end.

Fixpoint calls (log : list action) : list Request :=
  match log with
  | [] => []
  | Call r :: log' => r :: calls log'
  | _ :: log' => calls log'
  end.

(** ** The string table *)

(** [AgeKeyGeneratorWindow._load_strings]: the one table the program
    builds; the window hands it to every worker it creates. *)
Definition _load_strings : gmap string string :=
  list_to_map [
    ("TITLE", "Age Key Generator");
    ("BTN_GENERATE", "Generate New Key Pair");
    ("BTN_COPY", "Copy");
    ("BTN_SAVE", "Save");
    ("LBL_PRIVATE", "Private Key (Identity Key)");
    ("LBL_PUBLIC", "Public Key (Recipient Key)");
    ("HINT_PRIVATE", "Keep it safe and never share it.");
    ("HINT_PUBLIC", "Can be shared safely.");
    ("PLACEHOLDER_PRIVATE",
       "Click 'Generate New Key Pair' to create a Private Key...");
    ("PLACEHOLDER_PUBLIC", "The Public Key will be displayed here...");
    ("STATUS_READY", "Ready");
    ("STATUS_GENERATING", "Generating Key...");
    ("STATUS_SUCCESS", "Key Generation Successful!");
    ("STATUS_ERROR", "An Error Occurred");
    ("MSG_COPY_SUCCESS", "Copied to clipboard");
    ("MSG_SAVE_SUCCESS", "File saved successfully");
    ("MSG_NO_KEY", "Please generate a valid key first");
    ("MSG_AGE_NOT_FOUND",
       "age-keygen not found. Please ensure age is installed.");
    ("MSG_GENERATING", "Generating key. Please wait...");
    ("ERROR_TITLE", "Error");
    ("INFO_TITLE", "Information");
    ("WARNING_TITLE", "Warning");
    ("STATUS_INITIALIZING", "Initializing...");
    ("STATUS_RUNNING", "Executing age-keygen...");
    ("STATUS_EXTRACTING_PUBLIC", "Extracting Public Key...");
    ("STATUS_EXPORTING_PUBLIC", "Exporting Public Key...");
    ("STATUS_DONE", "Done!");
    ("ERROR_NO_PRIVATE_KEY", "No valid Private Key found");
    ("ERROR_EXPORT_PUBLIC", "Unable to derive Public Key");
    ("ERROR_TIMEOUT", "Operation timed out. Please try again.");
    ("ERROR_SUBPROCESS", "age-keygen execution failed");
    ("ERROR_UNKNOWN", "An unexpected error occurred");
    ("BTN_CLOSE", "Close")
  ].

(** [strings[key]].  Every key the program reads is a literal that the
    table above defines, so the [KeyError] of a missing key cannot arise;
    a missing key reads as the empty string here. *)
Definition getitem (strings : gmap string string) (key : string) : string :=
  default "" (strings !! key).
Arguments getitem : simpl never.

(** ** KeyGenerationWorker *)

Module KeyGenerationWorker.

Record t : Type := {
  age_keygen_path : string;
  strings : gmap string string
}.

(** The first loop of [run]: the first trimmed line that starts with the
    private-key prefix, or the initial empty string when the loop ends
    without [break]. *)
Fixpoint extract_private_key (lines : list string) : string :=
  match lines with
  | [] => ""
  | line :: rest =>
      let line := Py.strip line in
      if Py.startswith line "AGE-SECRET-KEY-" then line
      else extract_private_key rest
  end.

(** The second loop of [run]: both tests are made on a trimmed line before
    the next line is read, and either one leaves the loop. *)
Fixpoint extract_public_key (lines : list string) : string :=
  match lines with
  | [] => ""
  | line :: rest =>
      let line := Py.strip line in
      if Py.startswith line "age1" then line
      else if Py.startswith line "# public key:"
           then Py.strip (Py.replace line "# public key:" "")
           else extract_public_key rest
  end.

Section Run.
Variable env : Env.
Variable self : t.

(** [_derive_public_key]: every exception of the call is caught and
    turned into the table entry ERROR_EXPORT_PUBLIC. *)
Definition _derive_public_key (private_key : string) : M string :=
  try_except
    (result <- subprocess_run env
                 {| argv := [age_keygen_path self; "-y"];
                    input := BytesInput (Py.encode_utf8 private_key);
                    timeout := 10 |} ;;
     ret (Py.strip (stdout result)))
    (fun _ => ret (getitem (strings self) "ERROR_EXPORT_PUBLIC")).

(** [run]: the two signals before the [try], the body of the [try] with
    its early [return] when no private key is found, and the three
    [except] clauses. *)
Definition run : M unit :=
  emit started ;;
  emit (progress (getitem (strings self) "STATUS_INITIALIZING")) ;;
  try_except
    (emit (progress (getitem (strings self) "STATUS_RUNNING")) ;;
     result <- subprocess_run env
                 {| argv := [age_keygen_path self];
                    input := NoInput;
                    timeout := 30 |} ;;
     let output := stdout result +:+ stderr result in
     let private_key := extract_private_key (Py.splitlines output) in
     if Py.is_empty private_key then
       let error_msg := getitem (strings self) "ERROR_NO_PRIVATE_KEY" in
       emit (error error_msg) ;;
       emit (finished "" "" error_msg)
     else
       emit (progress (getitem (strings self) "STATUS_EXTRACTING_PUBLIC")) ;;
       let public_key := extract_public_key (Py.splitlines output) in
       public_key <-
         (if Py.is_empty public_key then
            emit (progress (getitem (strings self) "STATUS_EXPORTING_PUBLIC")) ;;
            _derive_public_key private_key
          else ret public_key) ;;
       emit (progress (getitem (strings self) "STATUS_DONE")) ;;
       emit (finished private_key public_key ""))
    (fun e =>
       match e with
       | TimeoutExpired =>
           let error_msg := getitem (strings self) "ERROR_TIMEOUT" in
           emit (error error_msg) ;;
           emit (finished "" "" error_msg)
       | CalledProcessError _ _ e_stderr =>
           let error_msg :=
             getitem (strings self) "ERROR_SUBPROCESS" +:+ ": "
             +:+ Py.or_else (Py.strip e_stderr) "unknown output" in
           emit (error error_msg) ;;
           emit (finished "" "" error_msg)
       | OtherError str_e =>
           let error_msg :=
             getitem (strings self) "ERROR_UNKNOWN" +:+ ": " +:+ str_e in
           emit (error error_msg) ;;
           emit (finished "" "" error_msg)
       end).

(** The log of one run, started on an empty log. *)
Definition trace : list action := snd (run []).

(** The two requests of a run and the pieces its log is made of. *)
Definition primary_request : Request :=
  {| argv := [age_keygen_path self]; input := NoInput; timeout := 30 |}.

Definition derive_request (private_key : string) : Request :=
  {| argv := [age_keygen_path self; "-y"];
     input := BytesInput (Py.encode_utf8 private_key);
     timeout := 10 |}.

Definition prologue : list action :=
  [Emit started;
   Emit (progress (getitem (strings self) "STATUS_INITIALIZING"));
   Emit (progress (getitem (strings self) "STATUS_RUNNING"));
   Call primary_request].

Definition failure (error_msg : string) : list action :=
  [Emit (error error_msg); Emit (finished "" "" error_msg)].

Definition epilogue (private_key public_key : string) : list action :=
  [Emit (progress (getitem (strings self) "STATUS_DONE"));
   Emit (finished private_key public_key "")].

(** What the attempt to derive the public key leaves in the log. *)
Definition derivation (private_key : string) : list action :=
  Emit (progress (getitem (strings self) "STATUS_EXPORTING_PUBLIC"))
  :: Call (derive_request private_key)
  :: match start_error env [age_keygen_path self; "-y"] with
     | Some _ => []
     | None => [Spawn [age_keygen_path self; "-y"]; Kill]
     end.
End Run.

(** The worker as [_start_key_generation] constructs it. *)
Definition new (age_keygen_path : string) : t :=
  {| age_keygen_path := age_keygen_path; strings := _load_strings |}.

End KeyGenerationWorker.

(** ** The lines the two loops stop at *)

Module Scan.

(** A trimmed line the second loop stops at. *)
Definition matches_public (line : string) : bool :=
  Py.startswith line "age1" || Py.startswith line "# public key:".

(** The public key the second loop reads off the line it stops at. *)
Definition public_key_of (line : string) : string :=
  if Py.startswith line "age1" then line
  else Py.strip (Py.replace line "# public key:" "").

(** The test of the first loop: no line begins with the prefix once it is
    trimmed. *)
Definition no_trimmed_line_begins_with (pfx output : string) : Prop :=
  forall l, In l (Py.splitlines output) ->
    Py.startswith (Py.strip l) pfx = false.

End Scan.

(** ** What a run reports *)

Module Report.

(** The message of a run whose primary invocation exits with a non-zero
    status, built from the standard error of the child. *)
Definition tool_failure_message (e_stderr : string) : string :=
  "age-keygen execution failed: "
  +:+ Py.or_else (Py.strip e_stderr) "unknown output".

(** The public key a run reports, if it reports success. *)
Definition reported_public_key (log : list action) : option string :=
  match last (signals log) with
  | Some (finished _ public_key "") => Some public_key
  | _ => None
  end.

End Report.

(** ** The claims' own words *)

Module Stated.

(** No line of the output begins with the prefix. *)
Definition no_line_begins_with (pfx output : string) : Prop :=
  forall l, In l (Py.splitlines output) -> Py.startswith l pfx = false.

(** The first line, in order, that begins with age1 or with the comment
    marker; the line itself in the first case, the trimmed remainder after
    the marker in the second. *)
Definition stated_public_key (output : string) : option string :=
  match
    List.find
      (fun l => Py.startswith l "age1" || Py.startswith l "# public key:")
      (Py.splitlines output)
  with
  | Some l =>
      Some (if Py.startswith l "age1" then l
            else Py.strip (Py.slice_from 13 l))
  | None => None
  end.

End Stated.

(** ** Every run, by its signals *)

Module Shapes.
Import KeyGenerationWorker.

Section Shapes.
Variable self : t.
Let msg (key : string) := getitem (strings self) key.

(** The four messages of a failed run. *)
Inductive failure_message : string -> Prop :=
| unexpected str_e :
    failure_message (msg "ERROR_UNKNOWN" +:+ ": " +:+ str_e)
| timed_out : failure_message (msg "ERROR_TIMEOUT")
| tool_failed e_stderr :
    failure_message
      (msg "ERROR_SUBPROCESS" +:+ ": "
       +:+ Py.or_else (Py.strip e_stderr) "unknown output")
| no_private_key : failure_message (msg "ERROR_NO_PRIVATE_KEY").

(** The three forms the signals of a run can take. *)
Inductive run_signals : list signal -> Prop :=
| failed error_msg :
    failure_message error_msg ->
    run_signals
      [started;
       progress (msg "STATUS_INITIALIZING");
       progress (msg "STATUS_RUNNING");
       error error_msg;
       finished "" "" error_msg]
| found private_key public_key :
    Py.startswith private_key "AGE-SECRET-KEY-" = true ->
    public_key <> "" ->
    run_signals
      [started;
       progress (msg "STATUS_INITIALIZING");
       progress (msg "STATUS_RUNNING");
       progress (msg "STATUS_EXTRACTING_PUBLIC");
       progress (msg "STATUS_DONE");
       finished private_key public_key ""]
| derived private_key :
    Py.startswith private_key "AGE-SECRET-KEY-" = true ->
    run_signals
      [started;
       progress (msg "STATUS_INITIALIZING");
       progress (msg "STATUS_RUNNING");
       progress (msg "STATUS_EXTRACTING_PUBLIC");
       progress (msg "STATUS_EXPORTING_PUBLIC");
       progress (msg "STATUS_DONE");
       finished private_key (msg "ERROR_EXPORT_PUBLIC") ""].

End Shapes.

End Shapes.

(** ** The state machine of the task *)

Module StateMachine.

(** The states of the task: those of the specification, with [Launched]
    for the moment between the signal [started] and the first progress
    message and [Reported] for the moment after the terminal signal. *)
Inductive state : Type :=
| Idle
| Launched
| Initializing
| Running
| ExtractingPublicKey
| ExportingPublicKey
| Done
| Failed (error_msg : string)
| Reported.

(** A state the task can fail from. *)
Definition in_flight (st : state) : Prop :=
  match st with
  | Initializing | Running | ExtractingPublicKey | ExportingPublicKey => True
  | _ => False
  end.

(** One signal moves the machine by one transition. *)
Inductive step : state -> signal -> state -> Prop :=
| step_started : step Idle started Launched
| step_initializing :
    step Launched (progress "Initializing...") Initializing
| step_running :
    step Initializing (progress "Executing age-keygen...") Running
| step_extracting :
    step Running (progress "Extracting Public Key...") ExtractingPublicKey
| step_exporting :
    step ExtractingPublicKey (progress "Exporting Public Key...")
      ExportingPublicKey
| step_done_found :
    step ExtractingPublicKey (progress "Done!") Done
| step_done_derived :
    step ExportingPublicKey (progress "Done!") Done
| step_success private_key public_key :
    step Done (finished private_key public_key "") Reported
| step_error st error_msg :
    in_flight st -> step st (error error_msg) (Failed error_msg)
| step_failure error_msg :
    step (Failed error_msg) (finished "" "" error_msg) Reported.

Inductive steps : state -> list signal -> state -> Prop :=
| steps_nil st : steps st [] st
| steps_cons st1 s st2 rest st3 :
    step st1 s st2 -> steps st2 rest st3 -> steps st1 (s :: rest) st3.

(** The terminal signal. *)
Definition is_terminal (s : signal) : bool :=
  match s with finished _ _ _ => true | _ => false end.

End StateMachine.

(** ** AgeKeyGeneratorWindow *)

Module AgeKeyGeneratorWindow.

(** The boxes the window puts in front of the user. *)
Inductive dialog : Type :=
| critical (title text : string)
| warning (title text : string)
| save_file_name (caption default_name file_filter : string).

Record File : Type := { content : string; mode : Z }.

(** The calls on the file system, in order. *)
Inductive syscall : Type :=
| open_w (path content : string)
| chmod (path : string) (mode : Z).

(** The window with the part of the desktop it acts on.  [self.strings]
    is assigned once, in [__init__], the table of [_load_strings], and is
    read as that table.  The text edits hold their plain text; the colours
    of [_set_text_with_color] are left out. *)
Record t : Type := {
  age_keygen_path : string;
  private_key_edit : string;
  public_key_edit : string;
  status_label : string;
  generate_btn : bool;
  dialogs : list dialog;
  clipboard : string;
  files : gmap string File;
  syscalls : list syscall
}.

(** What the surroundings answer: the value of [os.name], the path the
    user picks in the save dialog (empty when the dialog is cancelled), the
    error, if any, of opening a path for writing and of changing its mode,
    and the mode a newly created file gets. *)
Record Os : Type := {
  os_name : string;
  getSaveFileName : string -> string -> string -> string;
  open_error : string -> option string;
  chmod_error : string -> option string;
  creation_mode : Z
}.

Definition strings : gmap string string := _load_strings.

Definition set_private_key_edit (text : string) (w : t) : t :=
  {| age_keygen_path := age_keygen_path w;
     private_key_edit := text;
     public_key_edit := public_key_edit w;
     status_label := status_label w;
     generate_btn := generate_btn w;
     dialogs := dialogs w;
     clipboard := clipboard w;
     files := files w;
     syscalls := syscalls w |}.

Definition set_public_key_edit (text : string) (w : t) : t :=
  {| age_keygen_path := age_keygen_path w;
     private_key_edit := private_key_edit w;
     public_key_edit := text;
     status_label := status_label w;
     generate_btn := generate_btn w;
     dialogs := dialogs w;
     clipboard := clipboard w;
     files := files w;
     syscalls := syscalls w |}.

Definition set_status_label (text : string) (w : t) : t :=
  {| age_keygen_path := age_keygen_path w;
     private_key_edit := private_key_edit w;
     public_key_edit := public_key_edit w;
     status_label := text;
     generate_btn := generate_btn w;
     dialogs := dialogs w;
     clipboard := clipboard w;
     files := files w;
     syscalls := syscalls w |}.

Definition set_generate_btn (enabled : bool) (w : t) : t :=
  {| age_keygen_path := age_keygen_path w;
     private_key_edit := private_key_edit w;
     public_key_edit := public_key_edit w;
     status_label := status_label w;
     generate_btn := enabled;
     dialogs := dialogs w;
     clipboard := clipboard w;
     files := files w;
     syscalls := syscalls w |}.

Definition show (d : dialog) (w : t) : t :=
  {| age_keygen_path := age_keygen_path w;
     private_key_edit := private_key_edit w;
     public_key_edit := public_key_edit w;
     status_label := status_label w;
     generate_btn := generate_btn w;
     dialogs := dialogs w ++ [d];
     clipboard := clipboard w;
     files := files w;
     syscalls := syscalls w |}.

Definition set_clipboard (text : string) (w : t) : t :=
  {| age_keygen_path := age_keygen_path w;
     private_key_edit := private_key_edit w;
     public_key_edit := public_key_edit w;
     status_label := status_label w;
     generate_btn := generate_btn w;
     dialogs := dialogs w;
     clipboard := text;
     files := files w;
     syscalls := syscalls w |}.

Definition set_files (fs : gmap string File) (call : syscall) (w : t) : t :=
  {| age_keygen_path := age_keygen_path w;
     private_key_edit := private_key_edit w;
     public_key_edit := public_key_edit w;
     status_label := status_label w;
     generate_btn := generate_btn w;
     dialogs := dialogs w;
     clipboard := clipboard w;
     files := fs;
     syscalls := syscalls w ++ [call] |}.

(** A call that fails leaves the files as they are. *)
Definition failed_call (call : syscall) (w : t) : t := set_files (files w) call w.

(** The text [_set_text_with_color] inserts: the table entry when
    [text_key] is a key of the table, [text_key] itself otherwise. *)
Definition text_for (text_key : string) : string :=
  match strings !! text_key with
  | Some text => text
  | None => text_key
  end.

Definition _on_generation_progress (message : string) (w : t) : t :=
  set_status_label message w.

Definition _on_generation_error (error_message : string) (w : t) : t :=
  show (critical (getitem strings "ERROR_TITLE") error_message)
    (set_generate_btn true
       (set_status_label (getitem strings "STATUS_ERROR") w)).

Definition _on_generation_finished
    (private_key public_key error : string) (w : t) : t :=
  if negb (Py.is_empty error) then _on_generation_error error w
  else
    set_generate_btn true
      (set_status_label (getitem strings "STATUS_SUCCESS")
         (set_public_key_edit (text_for public_key)
            (set_private_key_edit (text_for private_key) w))).

(** The connections made in [_start_key_generation]: each signal of the
    worker reaches its slot, in the order of emission; [started] has no
    slot.  A slot is run to its end here; a message box that is open does
    not change which boxes are shown. *)
Definition deliver (w : t) (s : signal) : t :=
  match s with
  | started => w
  | progress message => _on_generation_progress message w
  | finished private_key public_key error_text =>
      _on_generation_finished private_key public_key error_text w
  | error message => _on_generation_error message w
  end.

(** [_start_key_generation] up to the start of the thread. *)
Definition _start_key_generation (w : t) : t :=
  set_public_key_edit (text_for "PLACEHOLDER_PUBLIC")
    (set_private_key_edit (text_for "PLACEHOLDER_PRIVATE")
       (set_status_label (getitem strings "STATUS_GENERATING")
          (set_generate_btn false w))).

(** One generation attempt: the click, the run of a new worker, and the
    delivery of its signals. *)
Definition generation_attempt (env : Env) (w : t) : t :=
  fold_left deliver
    (signals
       (KeyGenerationWorker.trace env
          (KeyGenerationWorker.new (age_keygen_path w))))
    (_start_key_generation w).

(** The text edit a copy or save action reads, the key it takes from it
    and the placeholder it compares the key with. *)
Definition key_edit (is_private : bool) (w : t) : string :=
  if is_private then private_key_edit w else public_key_edit w.

Definition displayed_key (is_private : bool) (w : t) : string :=
  Py.strip (key_edit is_private w).

Definition placeholder_text (is_private : bool) : string :=
  if is_private then getitem strings "PLACEHOLDER_PRIVATE"
  else getitem strings "PLACEHOLDER_PUBLIC".

Definition placeholder_key (is_private : bool) : string :=
  Py.strip (placeholder_text is_private).

(** [not key or key == placeholder_key]. *)
Definition no_key (is_private : bool) (w : t) : bool :=
  Py.is_empty (displayed_key is_private w)
  || String.eqb (displayed_key is_private w) (placeholder_key is_private).

Definition _copy_key (is_private : bool) (w : t) : t :=
  let key := displayed_key is_private w in
  if no_key is_private w then
    show (warning (getitem strings "WARNING_TITLE")
            (getitem strings "MSG_NO_KEY")) w
  else
    set_status_label (getitem strings "MSG_COPY_SUCCESS")
      (set_clipboard key w).

(** The three arguments of the save dialog that depend on the key. *)
Definition default_name (is_private : bool) : string :=
  let default_ext := if is_private then ".key" else ".txt" in
  "age_" +:+ (if is_private then "private" else "public") +:+ default_ext.

Definition file_filter (is_private : bool) : string :=
  if is_private
  then "Age Private Key (*.key);;Text Files (*.txt);;All Files (*)"
  else "Age Public Key (*.txt);;All Files (*)".

(** The path written to: a private key gets the extension [.key] unless
    the chosen path ends with it, in any case of the letters. *)
Definition target_path (is_private : bool) (path : string) : string :=
  if is_private && negb (Py.endswith (Py.lower path) ".key")
  then path +:+ ".key" else path.

(** [open(path, "w")] followed by [f.write(key)]: an existing file keeps
    its mode, a new one gets the creation mode. *)
Definition written (os : Os) (path key : string) (w : t) : File :=
  {| content := key;
     mode := match files w !! path with
             | Some f => mode f
             | None => creation_mode os
             end |}.

Definition mode_0o600 : Z := 6 * 64.

Definition _save_key (os : Os) (is_private : bool) (w : t) : t :=
  let key := displayed_key is_private w in
  if no_key is_private w then
    show (warning (getitem strings "WARNING_TITLE")
            (getitem strings "MSG_NO_KEY")) w
  else
    let caption := getitem strings "BTN_SAVE" in
    let path :=
      getSaveFileName os caption (default_name is_private)
        (file_filter is_private) in
    let w :=
      show (save_file_name caption (default_name is_private)
              (file_filter is_private)) w in
    if Py.is_empty path then w
    else
      let is_posix := String.eqb (os_name os) "posix" in
      let path := target_path is_private path in
      let save_failed str_e w :=
        show (critical (getitem strings "ERROR_TITLE")
                ("Save failed: " +:+ str_e)) w in
      match open_error os path with
      | Some str_e => save_failed str_e (failed_call (open_w path key) w)
      | None =>
          let w :=
            set_files (<[path := written os path key w]> (files w))
              (open_w path key) w in
          if is_posix && is_private then
            match chmod_error os path with
            | Some str_e =>
                save_failed str_e (failed_call (chmod path mode_0o600) w)
            | None =>
                set_status_label (getitem strings "MSG_SAVE_SUCCESS")
                  (set_files
                     (<[path := {| content := key; mode := mode_0o600 |}]>
                        (files w))
                     (chmod path mode_0o600) w)
            end
          else set_status_label (getitem strings "MSG_SAVE_SUCCESS") w
      end.

(** The window after [__init__], on an empty desktop. *)
Definition init (age_keygen_path : string) : t :=
  {| age_keygen_path := age_keygen_path;
     private_key_edit := "";
     public_key_edit := "";
     status_label := getitem strings "STATUS_READY";
     generate_btn := true;
     dialogs := [];
     clipboard := "";
     files := ∅;
     syscalls := [] |}.

End AgeKeyGeneratorWindow.

(** ** Executables, outputs and windows to evaluate the program on *)

Module Inputs.

(** An executable that prints the given text and exits with 0. *)
Definition prints (output : string) : Env :=
  {| start_error := fun _ => None;
     child := fun _ _ => Exited 0 output "" |}.

(** An executable that prints an indented key line. *)
Definition indented_key : Env := prints ("  AGE-SECRET-KEY-1ABCDEF" +:+ LF).

(** An executable that prints no key at all, on either stream. *)
Definition prints_hello : Env :=
  {| start_error := fun _ => None;
     child := fun _ _ => Exited 0 ("hello" +:+ LF) ("world" +:+ LF) |}.

(** An executable that writes one line to standard error and exits
    with 1. *)
Definition exits_1 : Env :=
  {| start_error := fun _ => None;
     child := fun _ _ => Exited 1 "" ("boom" +:+ LF) |}.

(** An executable that prints only the private key; started with [-y] it
    would answer the key it is fed with the public key. *)
Definition key_only : Env :=
  {| start_error := fun _ => None;
     child := fun command fed =>
       match command, fed with
       | [_], _ => Exited 0 ("AGE-SECRET-KEY-1ABCDEF" +:+ LF) ""
       | _, Some _ => Exited 0 ("age1derived" +:+ LF) ""
       | _, None => Overrun
       end |}.

(** An executable whose first public-key line is a comment without a
    value, followed by a line that starts with age1. *)
Definition blank_comment : Env :=
  prints ("AGE-SECRET-KEY-1ABCDEF" +:+ LF +:+ "# public key:  "
          +:+ LF +:+ "age1later" +:+ LF).

(** The output of the specification's example. *)
Definition example_output : string :=
  "AGE-SECRET-KEY-1ABCDEF..." +:+ LF +:+ "# public key: age1xyz...".

(** Outputs on which the code and the words of C3 part: an indented age1
    line before another one, a comment line in which the marker occurs
    twice, and a comment line without a value. *)
Definition indented_output : string :=
  "AGE-SECRET-KEY-1ABCDEF" +:+ LF +:+ "  age1first" +:+ LF +:+ "age1second".

Definition repeated_marker_output : string :=
  "AGE-SECRET-KEY-1ABCDEF" +:+ LF
  +:+ "# public key: age1x # public key: y".

Definition blank_comment_output : string :=
  "AGE-SECRET-KEY-1ABCDEF" +:+ LF +:+ "# public key:" +:+ LF +:+ "age1xyz".

(** A window that still shows the placeholders, as
    [_start_key_generation] leaves it. *)
Definition generating : AgeKeyGeneratorWindow.t :=
  AgeKeyGeneratorWindow._start_key_generation
    (AgeKeyGeneratorWindow.init "age-keygen").

(** A window that displays a generated key pair. *)
Definition displaying : AgeKeyGeneratorWindow.t :=
  AgeKeyGeneratorWindow.set_public_key_edit "age1xyz"
    (AgeKeyGeneratorWindow.set_private_key_edit "AGE-SECRET-KEY-1ABCDEF"
       (AgeKeyGeneratorWindow.init "age-keygen")).

(** A POSIX desktop on which every call succeeds and the user picks
    [/home/u/id]. *)
Definition posix : AgeKeyGeneratorWindow.Os :=
  {| AgeKeyGeneratorWindow.os_name := "posix";
     AgeKeyGeneratorWindow.getSaveFileName := fun _ _ _ => "/home/u/id";
     AgeKeyGeneratorWindow.open_error := fun _ => None;
     AgeKeyGeneratorWindow.chmod_error := fun _ => None;
     AgeKeyGeneratorWindow.creation_mode := 420 |}.

End Inputs.

(** ** The executable locator and the start of the window *)

Module Locator.

(** What the locator asks of the machine it runs on: [os.name],
    [platform.system()], [os.path.exists], [os.path.abspath], the
    attributes [frozen] and [_MEIPASS] of [sys] (absent: [false], [None]),
    [os.path.dirname(sys.executable)], [os.path.join], [shutil.which],
    [os.access(path, os.X_OK)] and whether [os.chmod] raises. *)
Record Host : Type := {
  os_name : string;
  system : string;
  path_exists : string -> bool;
  abspath : string -> string;
  frozen : bool;
  _MEIPASS : option string;
  executable_dir : string;
  join : string -> string -> string;
  which : string -> option string;
  access_x : string -> bool;
  chmod_raises : string -> bool
}.







End Locator.

(** ** More executables and desktops to evaluate the program on *)

Module Cases.


(** An executable that does not come to an end. *)
Definition hangs : Env :=
  {| start_error := fun _ => None; child := fun _ _ => Overrun |}.

(** An executable that prints the comment lines and the key line of
    age-keygen. *)
Definition age_keygen : Env :=
  Inputs.prints
    ("# created: 2024-01-01T00:00:00Z" +:+ LF
     +:+ "# public key: age1xyz" +:+ LF
     +:+ "AGE-SECRET-KEY-1ABCDEF" +:+ LF).

(** An executable that prints two key lines. *)
Definition two_keys : Env :=
  Inputs.prints ("# note" +:+ LF +:+ " AGE-SECRET-KEY-1FIRST " +:+ LF
                 +:+ "AGE-SECRET-KEY-1SECOND" +:+ LF +:+ "age1xyz" +:+ LF).

(** An executable with a key line on each of its two streams. *)
Definition both_streams : Env :=
  {| start_error := fun _ => None;
     child := fun _ _ =>
       Exited 0 ("AGE-SECRET-KEY-1OUT" +:+ LF)
         ("AGE-SECRET-KEY-1ERR" +:+ LF +:+ "age1xyz" +:+ LF) |}.

(** A POSIX desktop on which the save dialog is cancelled. *)
Definition cancelled : AgeKeyGeneratorWindow.Os :=
  {| AgeKeyGeneratorWindow.os_name := "posix";
     AgeKeyGeneratorWindow.getSaveFileName := fun _ _ _ => "";
     AgeKeyGeneratorWindow.open_error := fun _ => None;
     AgeKeyGeneratorWindow.chmod_error := fun _ => None;
     AgeKeyGeneratorWindow.creation_mode := 420 |}.

(** A POSIX desktop on which no file can be opened for writing. *)
Definition read_only : AgeKeyGeneratorWindow.Os :=
  {| AgeKeyGeneratorWindow.os_name := "posix";
     AgeKeyGeneratorWindow.getSaveFileName := fun _ _ _ => "/home/u/id";
     AgeKeyGeneratorWindow.open_error :=
       fun _ => Some "[Errno 13] Permission denied";
     AgeKeyGeneratorWindow.chmod_error := fun _ => None;
     AgeKeyGeneratorWindow.creation_mode := 420 |}.

(** A POSIX desktop on which files can be written but not changed in
    mode. *)
Definition no_chmod : AgeKeyGeneratorWindow.Os :=
  {| AgeKeyGeneratorWindow.os_name := "posix";
     AgeKeyGeneratorWindow.getSaveFileName := fun _ _ _ => "/mnt/usb/id.key";
     AgeKeyGeneratorWindow.open_error := fun _ => None;
     AgeKeyGeneratorWindow.chmod_error :=
       fun _ => Some "[Errno 1] Operation not permitted";
     AgeKeyGeneratorWindow.creation_mode := 420 |}.

(** A Windows desktop on which every call succeeds. *)
Definition windows : AgeKeyGeneratorWindow.Os :=
  {| AgeKeyGeneratorWindow.os_name := "nt";
     AgeKeyGeneratorWindow.getSaveFileName := fun _ _ _ => "C:/keys/id";
     AgeKeyGeneratorWindow.open_error := fun _ => None;
     AgeKeyGeneratorWindow.chmod_error := fun _ => None;
     AgeKeyGeneratorWindow.creation_mode := 438 |}.

(** A Linux machine with age-keygen on the search path, not yet
    executable. *)
Definition linux : Locator.Host :=
  {| Locator.os_name := "posix";
     Locator.system := "Linux";
     Locator.path_exists := fun _ => false;
     Locator.abspath := fun p => "/home/u/" +:+ p;
     Locator.frozen := false;
     Locator._MEIPASS := None;
     Locator.executable_dir := "/usr/bin";
     Locator.join := fun a b => a +:+ "/" +:+ b;
     Locator.which := fun _ => Some "/opt/age/age-keygen";
     Locator.access_x := fun _ => false;
     Locator.chmod_raises := fun _ => false |}.


End Cases.

(** ** Tactics *)

Ltac run_unfold :=
  unfold KeyGenerationWorker.trace, KeyGenerationWorker.run,
    KeyGenerationWorker._derive_public_key, subprocess_run, try_except, bind,
    emit, act, ret, raise; cbn [argv input timeout stdout stderr returncode].

(** Rewrites the table entries of a worker built by [new]. *)
Ltac table :=
  cbn [KeyGenerationWorker.new KeyGenerationWorker.strings
       KeyGenerationWorker.age_keygen_path];
  autorewrite with table.

(** Walks a list of signals through the state machine. *)
Ltac walk :=
  repeat (eapply StateMachine.steps_cons; [constructor; try exact I|]);
  apply StateMachine.steps_nil.

(** * Theorems *)

(** ** Facts about logs *)

Lemma signals_app (l1 l2 : list action) :
  signals (l1 ++ l2) = signals l1 ++ signals l2.
Proof.
  induction l1 as [|a l1 IH]; [reflexivity|].
  destruct a; cbn; rewrite IH; reflexivity.
Qed.

(** ** Facts about the string operations *)

Module PyFacts.

Lemma startswith_app s p :
  Py.startswith s p = true -> exists rest, s = p +:+ rest.
Proof.
  unfold Py.startswith. revert s.
  induction p as [|c p IH]; intros s H.
  - exists s. reflexivity.
  - destruct s as [|d s]; [discriminate|]. cbn in H.
    destruct (Ascii.ascii_dec c d) as [->|]; [|discriminate].
    destruct (IH s H) as [rest ->]. exists rest. reflexivity.
Qed.

Lemma prefix_app p rest : String.prefix p (p +:+ rest) = true.
Proof.
  induction p as [|c p IH]; simpl.
  - destruct rest; reflexivity.
  - destruct (Ascii.ascii_dec c c); [exact IH|congruence].
Qed.

Lemma prefix_refl p : String.prefix p p = true.
Proof.
  induction p as [|c p IH]; simpl; [reflexivity|].
  destruct (Ascii.ascii_dec c c); [exact IH|congruence].
Qed.

Lemma contains_app_r a b : Py.contains (a +:+ b) b = true.
Proof.
  induction a as [|c a IH]; simpl.
  - destruct b as [|d b]; simpl; [reflexivity|].
    destruct (Ascii.ascii_dec d d); [|congruence].
    rewrite prefix_refl. reflexivity.
  - rewrite IH. apply orb_true_r.
Qed.

Lemma contains_empty s : Py.contains s "" = true.
Proof. destruct s; reflexivity. Qed.

Lemma contains_or_else a s d : Py.contains (a +:+ Py.or_else s d) s = true.
Proof.
  unfold Py.or_else. destruct s as [|c s]; simpl.
  - apply contains_empty.
  - apply contains_app_r.
Qed.

Lemma contains_false_cons c s sub :
  Py.contains (String c s) sub = false ->
  String.prefix sub (String c s) = false /\ Py.contains s sub = false.
Proof. simpl. intros H. apply orb_false_elim in H. exact H. Qed.

(** Passing over the rest of an occurrence. *)
Lemma replace_from_skip old new a rest :
  Py.replace_from old new (String.length a) (a +:+ rest)
  = Py.replace_from old new 0 rest.
Proof.
  induction a as [|c a IH]; simpl.
  - destruct rest; reflexivity.
  - exact IH.
Qed.

(** An occurrence at the very start is replaced and the scan goes on
    behind it. *)
Lemma replace_prefix c old new rest :
  Py.replace (String c old +:+ rest) (String c old) new
  = new +:+ Py.replace rest (String c old) new.
Proof.
  unfold Py.replace.
  change (String c old +:+ rest) with (String c (old +:+ rest)).
  cbn [Py.replace_from].
  change (String c (old +:+ rest)) with (String c old +:+ rest).
  rewrite prefix_app.
  change (String.length (String c old) - 1) with (String.length old - 0).
  rewrite Nat.sub_0_r. rewrite replace_from_skip. reflexivity.
Qed.

(** Without an occurrence nothing changes. *)
Lemma replace_absent s old new :
  Py.contains s old = false -> Py.replace s old new = s.
Proof.
  unfold Py.replace. induction s as [|c s IH]; intros H; [reflexivity|].
  apply contains_false_cons in H as [Hp Hc].
  cbn [Py.replace_from]. rewrite Hp. rewrite (IH Hc). reflexivity.
Qed.

Lemma rstrip_cons_empty c s :
  Py.rstrip (String c s) = "" -> Py.isspace c = true /\ Py.rstrip s = "".
Proof.
  simpl. destruct (Py.rstrip s); [|discriminate].
  destruct (Py.isspace c); [split; reflexivity|discriminate].
Qed.

(** A string that trims to nothing consists of white space. *)
Lemma strip_cons_empty c s :
  Py.strip (String c s) = "" -> Py.isspace c = true /\ Py.strip s = "".
Proof.
  unfold Py.strip. simpl. destruct (Py.isspace c) eqn:E.
  - intros H. split; [reflexivity|exact H].
  - intros H. apply rstrip_cons_empty in H as [H _]. congruence.
Qed.

(** White space holds no occurrence of a text that starts with a
    character that is not white space. *)
Lemma blank_contains_not c old s :
  Py.isspace c = false -> Py.strip s = "" ->
  Py.contains s (String c old) = false.
Proof.
  intros Hc. induction s as [|d s IH]; intros H; [reflexivity|].
  apply strip_cons_empty in H as [Hd Hs].
  simpl. rewrite (IH Hs).
  destruct (Ascii.ascii_dec c d) as [->|]; [congruence|reflexivity].
Qed.

Lemma is_empty_true s : Py.is_empty s = true <-> s = "".
Proof. destruct s; cbn; split; congruence. Qed.

Lemma is_empty_false s : Py.is_empty s = false <-> s <> "".
Proof. destruct s; cbn; split; congruence. Qed.

End PyFacts.

(** ** The string operations on sample texts *)

Module PyExamples.

Example splitlines_boundaries :
  Py.splitlines
    ("a" +:+ String (ascii_of_nat 12) "b" +:+ String (ascii_of_nat 28) "c"
     +:+ String (ascii_of_nat 133) "d" +:+ LF +:+ LF +:+ "e"
     +:+ String (ascii_of_nat 13) LF +:+ "f")
  = ["a"; "b"; "c"; "d"; ""; "e"; "f"].
Proof. reflexivity. Qed.

Example splitlines_final_boundary :
  Py.splitlines ("a" +:+ LF) = ["a"] /\ Py.splitlines LF = [""]
  /\ Py.splitlines "" = [].
Proof. repeat split. Qed.

Example strip_both_ends : Py.strip ("  a b " +:+ LF) = "a b".
Proof. reflexivity. Qed.

Example replace_every_occurrence :
  Py.replace "# public key: a# public key:b" "# public key:" "" = " ab".
Proof. reflexivity. Qed.

Example endswith_lower :
  Py.endswith (Py.lower "id.KEY") ".key" = true
  /\ Py.endswith (Py.lower "id.txt") ".key" = false.
Proof. split; reflexivity. Qed.

Example or_else_blank :
  Py.or_else (Py.strip LF) "unknown output" = "unknown output".
Proof. reflexivity. Qed.

End PyExamples.

(** ** The entries of the table that the worker reads *)

Module Table.

Lemma status_initializing :
  getitem _load_strings "STATUS_INITIALIZING" = "Initializing...".
Proof. reflexivity. Qed.

Lemma status_running :
  getitem _load_strings "STATUS_RUNNING" = "Executing age-keygen...".
Proof. reflexivity. Qed.

Lemma status_extracting_public :
  getitem _load_strings "STATUS_EXTRACTING_PUBLIC" = "Extracting Public Key...".
Proof. reflexivity. Qed.

Lemma status_exporting_public :
  getitem _load_strings "STATUS_EXPORTING_PUBLIC" = "Exporting Public Key...".
Proof. reflexivity. Qed.

Lemma status_done : getitem _load_strings "STATUS_DONE" = "Done!".
Proof. reflexivity. Qed.

Lemma error_no_private_key :
  getitem _load_strings "ERROR_NO_PRIVATE_KEY" = "No valid Private Key found".
Proof. reflexivity. Qed.

Lemma error_export_public :
  getitem _load_strings "ERROR_EXPORT_PUBLIC" = "Unable to derive Public Key".
Proof. reflexivity. Qed.

Lemma error_timeout :
  getitem _load_strings "ERROR_TIMEOUT"
  = "Operation timed out. Please try again.".
Proof. reflexivity. Qed.

Lemma error_subprocess :
  getitem _load_strings "ERROR_SUBPROCESS" = "age-keygen execution failed".
Proof. reflexivity. Qed.

Lemma error_unknown :
  getitem _load_strings "ERROR_UNKNOWN" = "An unexpected error occurred".
Proof. reflexivity. Qed.

Create Rewrite HintDb table.
#[export] Hint Rewrite status_initializing status_running
  status_extracting_public status_exporting_public status_done
  error_no_private_key error_export_public error_timeout error_subprocess
  error_unknown : table.

End Table.

(** ** The entries of the table that the window reads *)

Module WindowTable.
Import AgeKeyGeneratorWindow.

Lemma error_title : getitem strings "ERROR_TITLE" = "Error".
Proof. reflexivity. Qed.

Lemma warning_title : getitem strings "WARNING_TITLE" = "Warning".
Proof. reflexivity. Qed.

Lemma msg_no_key :
  getitem strings "MSG_NO_KEY" = "Please generate a valid key first".
Proof. reflexivity. Qed.

Lemma msg_save_success :
  getitem strings "MSG_SAVE_SUCCESS" = "File saved successfully".
Proof. reflexivity. Qed.

Lemma btn_save : getitem strings "BTN_SAVE" = "Save".
Proof. reflexivity. Qed.

Create Rewrite HintDb window_table.
#[export] Hint Rewrite error_title warning_title msg_no_key msg_save_success
  btn_save : window_table.

End WindowTable.

(** ** The log of a run, case by case *)

Module RunCases.
Import KeyGenerationWorker.

Section Cases.
Variable env : Env.
Variable self : t.

Let path := age_keygen_path self.
Let msg (key : string) := getitem (strings self) key.

Lemma not_started m :
  start_error env [path] = Some m ->
  trace env self =
    prologue self ++ failure (msg "ERROR_UNKNOWN" +:+ ": " +:+ m).
Proof. intros H. subst path. run_unfold. rewrite H. reflexivity. Qed.

Lemma overrun :
  start_error env [path] = None ->
  child env [path] None = Overrun ->
  trace env self =
    prologue self ++ [Spawn [path]; Kill] ++ failure (msg "ERROR_TIMEOUT").
Proof.
  intros H1 H2. subst path. run_unfold. rewrite H1. cbn. rewrite H2.
  reflexivity.
Qed.

Lemma exited_nonzero rc out err :
  start_error env [path] = None ->
  child env [path] None = Exited rc out err ->
  rc <> 0%Z ->
  trace env self =
    prologue self ++ [Spawn [path]]
    ++ failure (msg "ERROR_SUBPROCESS" +:+ ": "
                +:+ Py.or_else (Py.strip err) "unknown output").
Proof.
  intros H1 H2 H3. subst path. run_unfold. rewrite H1. cbn. rewrite H2.
  apply Z.eqb_neq in H3. rewrite H3. reflexivity.
Qed.

Lemma no_private_key out err :
  start_error env [path] = None ->
  child env [path] None = Exited 0 out err ->
  extract_private_key (Py.splitlines (out +:+ err)) = "" ->
  trace env self =
    prologue self ++ [Spawn [path]]
    ++ failure (msg "ERROR_NO_PRIVATE_KEY").
Proof.
  intros H1 H2 H3. subst path. run_unfold. rewrite H1. cbn. rewrite H2.
  cbn. rewrite H3. reflexivity.
Qed.

Lemma public_key_found out err :
  start_error env [path] = None ->
  child env [path] None = Exited 0 out err ->
  extract_private_key (Py.splitlines (out +:+ err)) <> "" ->
  extract_public_key (Py.splitlines (out +:+ err)) <> "" ->
  trace env self =
    prologue self
    ++ [Spawn [path];
        Emit (progress (msg "STATUS_EXTRACTING_PUBLIC"))]
    ++ epilogue self (extract_private_key (Py.splitlines (out +:+ err)))
         (extract_public_key (Py.splitlines (out +:+ err))).
Proof.
  intros H1 H2 H3 H4. subst path. run_unfold. rewrite H1. cbn. rewrite H2.
  cbn.
  destruct (extract_private_key _) eqn:E1; [congruence|].
  destruct (extract_public_key _) eqn:E2; [congruence|].
  reflexivity.
Qed.

Lemma public_key_derived out err :
  start_error env [path] = None ->
  child env [path] None = Exited 0 out err ->
  extract_private_key (Py.splitlines (out +:+ err)) <> "" ->
  extract_public_key (Py.splitlines (out +:+ err)) = "" ->
  trace env self =
    prologue self
    ++ [Spawn [path];
        Emit (progress (msg "STATUS_EXTRACTING_PUBLIC"))]
    ++ derivation env self
         (extract_private_key (Py.splitlines (out +:+ err)))
    ++ epilogue self (extract_private_key (Py.splitlines (out +:+ err)))
         (msg "ERROR_EXPORT_PUBLIC").
Proof.
  intros H1 H2 H3 H4. subst path. unfold derivation. run_unfold.
  rewrite H1. cbn. rewrite H2. cbn. rewrite H4.
  destruct (extract_private_key _) eqn:E1; [congruence|].
  cbn. destruct (start_error env [age_keygen_path self; "-y"]); reflexivity.
Qed.
End Cases.

End RunCases.

(** ** Facts about the two loops *)

Module ScanFacts.
Import KeyGenerationWorker Scan.

(** The first loop finds nothing exactly when no trimmed line starts with
    the private-key prefix. *)
Lemma extract_private_key_none lines :
  extract_private_key lines = "" <->
  (forall l, In l lines ->
     Py.startswith (Py.strip l) "AGE-SECRET-KEY-" = false).
Proof.
  induction lines as [|line rest IH]; cbn.
  - split; [intros _ l []|reflexivity].
  - destruct (Py.startswith (Py.strip line) "AGE-SECRET-KEY-") eqn:E.
    + split.
      * intros H. rewrite H in E. discriminate.
      * intros H. rewrite (H line) in E by (left; reflexivity). discriminate.
    + rewrite IH. split.
      * intros H l [<-|Hl]; [assumption|apply H; assumption].
      * intros H l Hl. apply H. right. assumption.
Qed.

(** What the first loop finds starts with the prefix. *)
Lemma extract_private_key_prefix lines :
  extract_private_key lines <> "" ->
  Py.startswith (extract_private_key lines) "AGE-SECRET-KEY-" = true.
Proof.
  induction lines as [|line rest IH]; cbn; [congruence|].
  destruct (Py.startswith (Py.strip line) "AGE-SECRET-KEY-") eqn:E;
    [intros _; exact E|exact IH].
Qed.

(** The second loop passes over the lines that match neither test. *)
Lemma extract_public_key_skip before rest :
  (forall l, In l before -> matches_public (Py.strip l) = false) ->
  extract_public_key (before ++ rest) = extract_public_key rest.
Proof.
  induction before as [|line before IH]; intros H; [reflexivity|].
  cbn [app extract_public_key].
  pose proof (H line (or_introl eq_refl)) as Hl.
  unfold matches_public in Hl. apply orb_false_elim in Hl as [-> ->].
  apply IH. intros l Hin. apply H. right. exact Hin.
Qed.

(** It stops at the first line that matches, whatever follows. *)
Lemma extract_public_key_stop line rest :
  matches_public (Py.strip line) = true ->
  extract_public_key (line :: rest) = public_key_of (Py.strip line).
Proof.
  unfold matches_public, public_key_of. cbn [extract_public_key].
  destruct (Py.startswith (Py.strip line) "age1"); [reflexivity|].
  cbn [orb]. intros ->. reflexivity.
Qed.

Lemma extract_public_key_none lines :
  (forall l, In l lines -> matches_public (Py.strip l) = false) ->
  extract_public_key lines = "".
Proof.
  intros H. rewrite <- (app_nil_r lines).
  rewrite (extract_public_key_skip lines [] H). reflexivity.
Qed.

(** The value of a comment line: the trimmed remainder, when the marker
    does not occur in it again. *)
Lemma public_key_of_comment rest :
  Py.contains rest "# public key:" = false ->
  public_key_of ("# public key:" +:+ rest) = Py.strip rest.
Proof.
  intros H. unfold public_key_of.
  change (Py.startswith ("# public key:" +:+ rest) "age1") with false.
  cbv iota. rewrite PyFacts.replace_prefix.
  rewrite (PyFacts.replace_absent _ _ _ H). reflexivity.
Qed.

Lemma matches_public_comment rest :
  matches_public ("# public key:" +:+ rest) = true.
Proof.
  unfold matches_public, Py.startswith.
  rewrite PyFacts.prefix_app. apply orb_true_r.
Qed.

(** A comment line without a value yields no public key. *)
Lemma public_key_of_blank_comment rest :
  Py.strip rest = "" -> public_key_of ("# public key:" +:+ rest) = "".
Proof.
  intros H. rewrite public_key_of_comment; [exact H|].
  apply PyFacts.blank_contains_not; [reflexivity|exact H].
Qed.

End ScanFacts.

(** ** Every run has one of the three forms *)

Module ShapesFacts.
Import KeyGenerationWorker Shapes.

Section Shapes.
Variable self : t.
Let msg (key : string) := getitem (strings self) key.

Lemma signals_derivation env private_key :
  signals (derivation env self private_key)
  = [progress (msg "STATUS_EXPORTING_PUBLIC")].
Proof.
  unfold derivation. cbn.
  destruct (start_error env [age_keygen_path self; "-y"]); reflexivity.
Qed.

Theorem run_signals_spec env : run_signals self (signals (trace env self)).
Proof.
  destruct (start_error env [age_keygen_path self]) as [m|] eqn:Hs.
  { rewrite (RunCases.not_started env self m Hs). apply failed, unexpected. }
  destruct (child env [age_keygen_path self] None)
    as [rc out err|] eqn:Hc.
  2: { rewrite (RunCases.overrun env self Hs Hc). apply failed, timed_out. }
  destruct (Z.eq_dec rc 0%Z) as [->|Hrc].
  2: { rewrite (RunCases.exited_nonzero env self rc out err Hs Hc Hrc).
       apply failed, tool_failed. }
  destruct (string_dec
              (extract_private_key (Py.splitlines (out +:+ err))) "")
    as [Hpriv|Hpriv].
  { rewrite (RunCases.no_private_key env self out err Hs Hc Hpriv).
    apply failed, no_private_key. }
  pose proof (ScanFacts.extract_private_key_prefix _ Hpriv) as Hpre.
  destruct (string_dec
              (extract_public_key (Py.splitlines (out +:+ err))) "")
    as [Hpub|Hpub].
  - rewrite (RunCases.public_key_derived env self out err Hs Hc Hpriv Hpub).
    rewrite !signals_app, signals_derivation. apply derived, Hpre.
  - rewrite (RunCases.public_key_found env self out err Hs Hc Hpriv Hpub).
    apply found; assumption.
Qed.

End Shapes.

End ShapesFacts.

(** ** Runs without a private key *)

Module NoPrivateKey.
Import KeyGenerationWorker Scan Stated Inputs.

Lemma signals_no_private_key env self out err :
  start_error env [age_keygen_path self] = None ->
  child env [age_keygen_path self] None = Exited 0 out err ->
  no_trimmed_line_begins_with "AGE-SECRET-KEY-" (out +:+ err) ->
  signals (trace env self) =
    [started;
     progress (getitem (strings self) "STATUS_INITIALIZING");
     progress (getitem (strings self) "STATUS_RUNNING");
     error (getitem (strings self) "ERROR_NO_PRIVATE_KEY");
     finished "" "" (getitem (strings self) "ERROR_NO_PRIVATE_KEY")].
Proof.
  intros Hs Hc Hn.
  apply ScanFacts.extract_private_key_none in Hn.
  rewrite (RunCases.no_private_key env self out err Hs Hc Hn).
  reflexivity.
Qed.

(** C4, as stated, fails: the only line of this output begins with two
    blanks, not with the prefix, yet the run reports success. *)
Lemma no_private_key_counterexample :
  no_line_begins_with "AGE-SECRET-KEY-" ("  AGE-SECRET-KEY-1ABCDEF" +:+ LF)
  /\ last (signals (trace indented_key (new "age-keygen")))
     = Some (finished "AGE-SECRET-KEY-1ABCDEF"
               "Unable to derive Public Key" "").
Proof.
  split.
  - intros l [<-|[]]. reflexivity.
  - reflexivity.
Qed.

(** C4, amended: when the primary invocation exits with status 0 and no
    line of its combined output begins with AGE-SECRET-KEY- once the line
    is trimmed, the run reports failure with the message
    "No valid Private Key found" and empty key strings, whatever else the
    output contains. *)
Theorem no_private_key_reported env path out err :
  start_error env [path] = None ->
  child env [path] None = Exited 0 out err ->
  no_trimmed_line_begins_with "AGE-SECRET-KEY-" (out +:+ err) ->
  signals (trace env (new path)) =
    [started;
     progress "Initializing...";
     progress "Executing age-keygen...";
     error "No valid Private Key found";
     finished "" "" "No valid Private Key found"].
Proof.
  intros Hs Hc Hn.
  rewrite (signals_no_private_key env (new path) out err Hs Hc Hn).
  table. reflexivity.
Qed.

Lemma no_private_key_reported_witness :
  signals (trace prints_hello (new "age-keygen")) =
    [started;
     progress "Initializing...";
     progress "Executing age-keygen...";
     error "No valid Private Key found";
     finished "" "" "No valid Private Key found"].
Proof.
  apply (no_private_key_reported prints_hello "age-keygen"
           ("hello" +:+ LF) ("world" +:+ LF)).
  - reflexivity.
  - reflexivity.
  - intros l H. vm_compute in H.
    destruct H as [<-|[<-|[]]]; reflexivity.
Defined.

End NoPrivateKey.

(** ** Runs whose primary invocation exits with a non-zero status *)

Module ToolExecutionFailed.
Import KeyGenerationWorker Report Inputs.

Lemma signals_exited_nonzero env self rc out err :
  start_error env [age_keygen_path self] = None ->
  child env [age_keygen_path self] None = Exited rc out err ->
  rc <> 0%Z ->
  let error_msg :=
    getitem (strings self) "ERROR_SUBPROCESS" +:+ ": "
    +:+ Py.or_else (Py.strip err) "unknown output" in
  signals (trace env self) =
    [started;
     progress (getitem (strings self) "STATUS_INITIALIZING");
     progress (getitem (strings self) "STATUS_RUNNING");
     error error_msg;
     finished "" "" error_msg].
Proof.
  intros Hs Hc Hrc.
  rewrite (RunCases.exited_nonzero env self rc out err Hs Hc Hrc).
  reflexivity.
Qed.

(** C5, as stated, fails: the captured standard error is the line "boom"
    with its line feed; the reported message is
    "age-keygen execution failed: boom" and does not contain that text. *)
Lemma stderr_counterexample :
  signals (trace exits_1 (new "age-keygen")) =
    [started;
     progress "Initializing...";
     progress "Executing age-keygen...";
     error "age-keygen execution failed: boom";
     finished "" "" "age-keygen execution failed: boom"]
  /\ Py.contains "age-keygen execution failed: boom" ("boom" +:+ LF) = false.
Proof. split; reflexivity. Qed.

(** C5, amended: when the primary invocation exits with a non-zero
    status, the run reports failure with a message that starts with
    "age-keygen execution failed: " and goes on with the captured standard
    error trimmed of surrounding white space, or with "unknown output" when
    nothing is left of it; so the message contains the trimmed text. *)
Theorem tool_failure_reported env path rc out err :
  start_error env [path] = None ->
  child env [path] None = Exited rc out err ->
  rc <> 0%Z ->
  signals (trace env (new path)) =
    [started;
     progress "Initializing...";
     progress "Executing age-keygen...";
     error (tool_failure_message err);
     finished "" "" (tool_failure_message err)]
  /\ Py.startswith (tool_failure_message err) "age-keygen execution failed" = true
  /\ Py.contains (tool_failure_message err) (Py.strip err) = true.
Proof.
  intros Hs Hc Hrc. split; [|split].
  - rewrite (signals_exited_nonzero env (new path) rc out err Hs Hc Hrc).
    table. reflexivity.
  - reflexivity.
  - apply PyFacts.contains_or_else.
Qed.

Lemma tool_failure_reported_witness :
  signals (trace exits_1 (new "age-keygen")) =
    [started;
     progress "Initializing...";
     progress "Executing age-keygen...";
     error (tool_failure_message ("boom" +:+ LF));
     finished "" "" (tool_failure_message ("boom" +:+ LF))]
  /\ Py.startswith (tool_failure_message ("boom" +:+ LF)) "age-keygen execution failed"
     = true
  /\ Py.contains (tool_failure_message ("boom" +:+ LF)) (Py.strip ("boom" +:+ LF)) = true.
Proof.
  apply (tool_failure_reported exits_1 "age-keygen" 1 "" ("boom" +:+ LF)).
  - reflexivity.
  - reflexivity.
  - lia.
Defined.

End ToolExecutionFailed.

(** ** The order of the signals *)

Module Ordering.
Import KeyGenerationWorker StateMachine.

(** Nothing follows the terminal signal in the machine. *)
Lemma reported_is_final s st : ~ step Reported s st.
Proof. intros H. inversion H. subst. contradiction. Qed.

(** C6: the signals of every run are a path of the state machine from
    [Idle] to [Reported]: started, the progress messages Initializing,
    Running, ExtractingPublicKey, optionally ExportingPublicKey, then Done
    and the success report, or an error and the failure report; the
    terminal signal [finished] is emitted once and is the last one. *)
Theorem signals_follow_state_machine env path :
  steps Idle (signals (trace env (new path))) Reported
  /\ exists before private_key public_key error_msg,
       signals (trace env (new path))
       = before ++ [finished private_key public_key error_msg]
       /\ forallb (fun s => negb (is_terminal s)) before = true.
Proof.
  pose proof (ShapesFacts.run_signals_spec (new path) env) as H.
  revert H. table. intros H.
  inversion H as [m _ E|priv pub _ _ E|priv _ E]; split.
  - walk.
  - exists [started; progress "Initializing...";
            progress "Executing age-keygen..."; error m], "", "", m.
    split; reflexivity.
  - walk.
  - exists [started; progress "Initializing...";
            progress "Executing age-keygen...";
            progress "Extracting Public Key..."; progress "Done!"],
      priv, pub, "".
    split; reflexivity.
  - walk.
  - exists [started; progress "Initializing...";
            progress "Executing age-keygen...";
            progress "Extracting Public Key...";
            progress "Exporting Public Key..."; progress "Done!"],
      priv, "Unable to derive Public Key", "".
    split; reflexivity.
Qed.

End Ordering.

(** ** Successful runs *)

Module Success.
Import KeyGenerationWorker.

Lemma failure_message_nonempty path m :
  Shapes.failure_message (new path) m -> m <> "".
Proof.
  intros H. inversion H; subst; revert H; table; intros _; discriminate.
Qed.

(** C1: when a run reports success, that is, emits [finished] with an
    empty error string, the reported private key starts with
    AGE-SECRET-KEY- and the reported public key is not empty; a run that
    went through the derivation of the public key reports the text
    "Unable to derive Public Key" in its place. *)
Theorem success_keys env path private_key public_key :
  In (finished private_key public_key "") (signals (trace env (new path))) ->
  Py.startswith private_key "AGE-SECRET-KEY-" = true /\ public_key <> "".
Proof.
  pose proof (ShapesFacts.run_signals_spec (new path) env) as H.
  intros Hin.
  inversion H as [m Hm E|priv pub Hpriv Hpub E|priv Hpriv E];
    rewrite <- E in Hin;
    repeat (destruct Hin as [Hin|Hin]; [try discriminate Hin|]);
    try contradiction.
  - apply failure_message_nonempty in Hm.
    injection Hin as _ _ Hm'. contradiction.
  - injection Hin as <- <-. split; assumption.
  - injection Hin as <- <-. split; [assumption|].
    table. discriminate.
Qed.

Lemma success_keys_witness :
  Py.startswith "AGE-SECRET-KEY-1ABCDEF" "AGE-SECRET-KEY-" = true
  /\ "Unable to derive Public Key" <> "".
Proof.
  apply (success_keys Inputs.key_only "age-keygen").
  vm_compute. do 6 right. left. reflexivity.
Defined.

End Success.

(** ** The derivation of the public key *)

Module Derivation.
Import KeyGenerationWorker Inputs.

Section Generic.
Variable env : Env.
Variable self : t.

(** A run that found a private key and no public key. *)
Lemma derived_run out err :
  start_error env [age_keygen_path self] = None ->
  child env [age_keygen_path self] None = Exited 0 out err ->
  extract_private_key (Py.splitlines (out +:+ err)) <> "" ->
  extract_public_key (Py.splitlines (out +:+ err)) = "" ->
  let private_key := extract_private_key (Py.splitlines (out +:+ err)) in
  signals (trace env self) =
    [started;
     progress (getitem (strings self) "STATUS_INITIALIZING");
     progress (getitem (strings self) "STATUS_RUNNING");
     progress (getitem (strings self) "STATUS_EXTRACTING_PUBLIC");
     progress (getitem (strings self) "STATUS_EXPORTING_PUBLIC");
     progress (getitem (strings self) "STATUS_DONE");
     finished private_key (getitem (strings self) "ERROR_EXPORT_PUBLIC") ""]
  /\ calls (trace env self)
     = [primary_request self; derive_request self private_key]
  /\ fed (trace env self) = [].
Proof.
  intros Hs Hc Hpriv Hpub.
  rewrite (RunCases.public_key_derived env self out err Hs Hc Hpriv Hpub).
  unfold derivation.
  destruct (start_error env [age_keygen_path self; "-y"]);
    repeat split; reflexivity.
Qed.
End Generic.

(** C2, evaluated on the code: when the primary invocation exits with 0
    and its output holds a private-key line but no line that matches a
    public-key test, the run calls [subprocess.run] a second time with the
    flag -y, the encoded private key as input and a timeout of 10; the call
    fails before anything is written to the standard input of the child,
    whatever the child would have answered, and the run reports success
    with the text "Unable to derive Public Key" as the public key. *)
Theorem derivation_input_never_fed env path out err :
  start_error env [path] = None ->
  child env [path] None = Exited 0 out err ->
  extract_private_key (Py.splitlines (out +:+ err)) <> "" ->
  (forall l, In l (Py.splitlines (out +:+ err)) ->
     Scan.matches_public (Py.strip l) = false) ->
  let private_key := extract_private_key (Py.splitlines (out +:+ err)) in
  calls (trace env (new path))
  = [ {| argv := [path]; input := NoInput; timeout := 30 |};
      {| argv := [path; "-y"];
         input := BytesInput (Py.encode_utf8 private_key);
         timeout := 10 |} ]
  /\ fed (trace env (new path)) = []
  /\ last (signals (trace env (new path)))
     = Some (finished private_key "Unable to derive Public Key" "").
Proof.
  intros Hs Hc Hpriv Hnone.
  apply ScanFacts.extract_public_key_none in Hnone.
  destruct (derived_run env (new path) out err Hs Hc Hpriv Hnone)
    as (Hsig & Hcalls & Hfed).
  repeat split.
  - exact Hcalls.
  - exact Hfed.
  - rewrite Hsig. table. reflexivity.
Qed.

Lemma derivation_input_never_fed_witness :
  calls (trace key_only (new "age-keygen"))
  = [ {| argv := ["age-keygen"]; input := NoInput; timeout := 30 |};
      {| argv := ["age-keygen"; "-y"];
         input := BytesInput "AGE-SECRET-KEY-1ABCDEF";
         timeout := 10 |} ]
  /\ fed (trace key_only (new "age-keygen")) = []
  /\ last (signals (trace key_only (new "age-keygen")))
     = Some (finished "AGE-SECRET-KEY-1ABCDEF"
               "Unable to derive Public Key" "").
Proof.
  apply (derivation_input_never_fed key_only "age-keygen"
           ("AGE-SECRET-KEY-1ABCDEF" +:+ LF) "").
  - reflexivity.
  - reflexivity.
  - discriminate.
  - intros l [<-|[]]. reflexivity.
Defined.

(** C9: when the first line that matches a public-key test, lines being
    read trimmed as the scan tests them, is a comment line that starts with
    "# public key:" and has nothing but white space after the marker, the
    scan stops there and yields no public key, whatever lines follow, also
    lines that start with age1; the run goes on to the derivation exactly
    as if no line had matched. *)
Theorem blank_comment_stops_scan env path out err before line rest after :
  start_error env [path] = None ->
  child env [path] None = Exited 0 out err ->
  extract_private_key (Py.splitlines (out +:+ err)) <> "" ->
  Py.splitlines (out +:+ err) = before ++ line :: after ->
  (forall l, In l before -> Scan.matches_public (Py.strip l) = false) ->
  Py.strip line = "# public key:" +:+ rest ->
  Py.strip rest = "" ->
  let private_key := extract_private_key (Py.splitlines (out +:+ err)) in
  extract_public_key (before ++ line :: after) = ""
  /\ extract_public_key (before ++ line :: after)
     = extract_public_key (before ++ [line])
  /\ signals (trace env (new path)) =
      [started;
       progress "Initializing...";
       progress "Executing age-keygen...";
       progress "Extracting Public Key...";
       progress "Exporting Public Key...";
       progress "Done!";
       finished private_key "Unable to derive Public Key" ""]
  /\ calls (trace env (new path))
     = [ {| argv := [path]; input := NoInput; timeout := 30 |};
         {| argv := [path; "-y"];
            input := BytesInput (Py.encode_utf8 private_key);
            timeout := 10 |} ].
Proof.
  intros Hs Hc Hpriv Hlines Hbefore Hline Hrest.
  assert (Hstop : forall tl, extract_public_key (before ++ line :: tl) = "").
  { intros tl. rewrite (ScanFacts.extract_public_key_skip _ _ Hbefore).
    rewrite ScanFacts.extract_public_key_stop
      by (rewrite Hline; apply ScanFacts.matches_public_comment).
    rewrite Hline. apply ScanFacts.public_key_of_blank_comment, Hrest. }
  assert (Hpub : extract_public_key (Py.splitlines (out +:+ err)) = "")
    by (rewrite Hlines; apply Hstop).
  destruct (derived_run env (new path) out err Hs Hc Hpriv Hpub)
    as (Hsig & Hcalls & _).
  repeat split.
  - apply Hstop.
  - rewrite !Hstop. reflexivity.
  - rewrite Hsig. table. reflexivity.
  - exact Hcalls.
Qed.

Lemma blank_comment_stops_scan_witness :
  extract_public_key
    (["AGE-SECRET-KEY-1ABCDEF"] ++ "# public key:  " :: ["age1later"]) = ""
  /\ extract_public_key
       (["AGE-SECRET-KEY-1ABCDEF"] ++ "# public key:  " :: ["age1later"])
     = extract_public_key (["AGE-SECRET-KEY-1ABCDEF"] ++ ["# public key:  "])
  /\ signals (trace blank_comment (new "age-keygen")) =
      [started;
       progress "Initializing...";
       progress "Executing age-keygen...";
       progress "Extracting Public Key...";
       progress "Exporting Public Key...";
       progress "Done!";
       finished "AGE-SECRET-KEY-1ABCDEF" "Unable to derive Public Key" ""]
  /\ calls (trace blank_comment (new "age-keygen"))
     = [ {| argv := ["age-keygen"]; input := NoInput; timeout := 30 |};
         {| argv := ["age-keygen"; "-y"];
            input := BytesInput "AGE-SECRET-KEY-1ABCDEF";
            timeout := 10 |} ].
Proof.
  apply (blank_comment_stops_scan blank_comment "age-keygen"
           ("AGE-SECRET-KEY-1ABCDEF" +:+ LF +:+ "# public key:  "
            +:+ LF +:+ "age1later" +:+ LF) ""
           ["AGE-SECRET-KEY-1ABCDEF"] "# public key:  " "" ["age1later"]).
  - reflexivity.
  - reflexivity.
  - discriminate.
  - reflexivity.
  - intros l [<-|[]]. reflexivity.
  - reflexivity.
  - reflexivity.
Defined.

End Derivation.

(** ** The scan for the public key *)

Module PublicKeyScan.
Import KeyGenerationWorker Stated Report Inputs.

Section Generic.
Variable env : Env.
Variable self : t.

(** A run that found both keys in the output. *)
Lemma found_run out err :
  start_error env [age_keygen_path self] = None ->
  child env [age_keygen_path self] None = Exited 0 out err ->
  extract_private_key (Py.splitlines (out +:+ err)) <> "" ->
  extract_public_key (Py.splitlines (out +:+ err)) <> "" ->
  signals (trace env self) =
    [started;
     progress (getitem (strings self) "STATUS_INITIALIZING");
     progress (getitem (strings self) "STATUS_RUNNING");
     progress (getitem (strings self) "STATUS_EXTRACTING_PUBLIC");
     progress (getitem (strings self) "STATUS_DONE");
     finished (extract_private_key (Py.splitlines (out +:+ err)))
       (extract_public_key (Py.splitlines (out +:+ err))) ""]
  /\ calls (trace env self) = [primary_request self].
Proof.
  intros Hs Hc Hpriv Hpub.
  rewrite (RunCases.public_key_found env self out err Hs Hc Hpriv Hpub).
  split; reflexivity.
Qed.
End Generic.

(** C3, as stated, fails on each of the three outputs: the claim's words
    give "age1second", the code reports "age1first"; the claim's words
    give "age1x # public key: y", the code reports "age1x  y"; the claim's
    words give the empty remainder, the code reports the text of the
    failed derivation. *)
Lemma stated_public_key_counterexample :
  (stated_public_key indented_output = Some "age1second"
   /\ reported_public_key (trace (prints indented_output) (new "age-keygen"))
      = Some "age1first")
  /\ (stated_public_key repeated_marker_output
      = Some "age1x # public key: y"
      /\ reported_public_key
           (trace (prints repeated_marker_output) (new "age-keygen"))
         = Some "age1x  y")
  /\ (stated_public_key blank_comment_output = Some ""
      /\ reported_public_key
           (trace (prints blank_comment_output) (new "age-keygen"))
         = Some "Unable to derive Public Key").
Proof. repeat split; reflexivity. Qed.

(** C3, amended: the scan is a single pass over the lines of the output,
    each trimmed of surrounding white space, with both tests made on a line
    before the next one is read.  The first line that, trimmed, starts with
    age1 or with "# public key:" decides: in the first case the trimmed
    line is the public key; in the second it is the trimmed line with the
    marker text taken out, trimmed again, which is the trimmed remainder
    after the marker when the marker does not occur in it again.  When
    this value is not empty the run reports it, with the private key, and
    calls [subprocess.run] only once.  So for the output
    AGE-SECRET-KEY-1ABCDEF... / # public key: age1xyz... the run reports
    success with these two keys and no derivation. *)
Theorem public_key_scan :
  (forall env path out err before line after,
     start_error env [path] = None ->
     child env [path] None = Exited 0 out err ->
     extract_private_key (Py.splitlines (out +:+ err)) <> "" ->
     Py.splitlines (out +:+ err) = before ++ line :: after ->
     (forall l, In l before -> Scan.matches_public (Py.strip l) = false) ->
     Scan.matches_public (Py.strip line) = true ->
     Scan.public_key_of (Py.strip line) <> "" ->
     signals (trace env (new path)) =
       [started;
        progress "Initializing...";
        progress "Executing age-keygen...";
        progress "Extracting Public Key...";
        progress "Done!";
        finished (extract_private_key (Py.splitlines (out +:+ err)))
          (Scan.public_key_of (Py.strip line)) ""]
     /\ calls (trace env (new path))
        = [ {| argv := [path]; input := NoInput; timeout := 30 |} ])
  /\ (forall line,
        Py.startswith line "age1" = true -> Scan.public_key_of line = line)
  /\ (forall rest,
        Py.contains rest "# public key:" = false ->
        Scan.public_key_of ("# public key:" +:+ rest) = Py.strip rest)
  /\ (forall env path out err,
        start_error env [path] = None ->
        child env [path] None = Exited 0 out err ->
        out +:+ err = example_output ->
        signals (trace env (new path)) =
          [started;
           progress "Initializing...";
           progress "Executing age-keygen...";
           progress "Extracting Public Key...";
           progress "Done!";
           finished "AGE-SECRET-KEY-1ABCDEF..." "age1xyz..." ""]
        /\ calls (trace env (new path))
           = [ {| argv := [path]; input := NoInput; timeout := 30 |} ]).
Proof.
  repeat apply conj.
  - intros env path out err before line after Hs Hc Hpriv Hlines Hbefore
      Hline Hvalue.
    assert (Hpub : extract_public_key (Py.splitlines (out +:+ err))
                   = Scan.public_key_of (Py.strip line)).
    { rewrite Hlines, (ScanFacts.extract_public_key_skip _ _ Hbefore).
      apply ScanFacts.extract_public_key_stop, Hline. }
    rewrite <- Hpub in Hvalue |- *.
    destruct (found_run env (new path) out err Hs Hc Hpriv Hvalue)
      as [Hsig Hcalls].
    split; [|exact Hcalls]. rewrite Hsig. table. reflexivity.
  - intros line H. unfold Scan.public_key_of. rewrite H. reflexivity.
  - apply ScanFacts.public_key_of_comment.
  - intros env path out err Hs Hc Hout.
    assert (Hpriv : extract_private_key (Py.splitlines (out +:+ err))
                    = "AGE-SECRET-KEY-1ABCDEF...")
      by (rewrite Hout; reflexivity).
    assert (Hpub : extract_public_key (Py.splitlines (out +:+ err))
                   = "age1xyz...")
      by (rewrite Hout; reflexivity).
    destruct (found_run env (new path) out err Hs Hc) as [Hsig Hcalls].
    + rewrite Hpriv. discriminate.
    + rewrite Hpub. discriminate.
    + split; [|exact Hcalls].
      rewrite Hsig, Hpriv, Hpub. table. reflexivity.
Qed.

Lemma public_key_scan_witness :
  signals (trace (prints example_output) (new "age-keygen")) =
    [started;
     progress "Initializing...";
     progress "Executing age-keygen...";
     progress "Extracting Public Key...";
     progress "Done!";
     finished "AGE-SECRET-KEY-1ABCDEF..." "age1xyz..." ""]
  /\ calls (trace (prints example_output) (new "age-keygen"))
     = [ {| argv := ["age-keygen"]; input := NoInput; timeout := 30 |} ].
Proof.
  exact (proj1 public_key_scan (prints example_output) "age-keygen"
           example_output "" ["AGE-SECRET-KEY-1ABCDEF..."]
           "# public key: age1xyz..." []
           eq_refl eq_refl ltac:(discriminate) eq_refl
           ltac:(intros l [<-|[]]; reflexivity) eq_refl
           ltac:(discriminate)).
Defined.

End PublicKeyScan.

(** ** Error reports of a failing attempt *)

Module ErrorReports.
Import AgeKeyGeneratorWindow.

(** The slot of [finished] passes a non-empty error on to the slot of
    [error]. *)
Lemma finished_with_error private_key public_key m w :
  m <> "" ->
  _on_generation_finished private_key public_key m w
  = _on_generation_error m w.
Proof.
  intros H. unfold _on_generation_finished.
  destruct m; [congruence|reflexivity].
Qed.

(** The boxes shown while the signals of a failed run are delivered. *)
Lemma dialogs_of_failed_run m w i r :
  m <> "" ->
  dialogs
    (fold_left deliver
       [started; progress i; progress r; error m; finished "" "" m] w)
  = dialogs w ++ [critical (getitem strings "ERROR_TITLE") m;
                  critical (getitem strings "ERROR_TITLE") m].
Proof.
  intros H. cbn [fold_left deliver].
  rewrite (finished_with_error "" "" m _ H).
  cbn. rewrite <- app_assoc. reflexivity.
Qed.

(** C7, evaluated on the code: in every attempt whose run emits the
    signal [error], the worker goes on to emit [finished] with the same
    message, the window handles both, and the user is shown the error box
    twice. *)
Theorem failing_attempt_reported_twice env w m :
  In (error m)
     (signals (KeyGenerationWorker.trace env
                 (KeyGenerationWorker.new (age_keygen_path w)))) ->
  dialogs (generation_attempt env w)
  = dialogs w ++ [critical "Error" m; critical "Error" m].
Proof.
  intros Hin. unfold generation_attempt.
  pose proof (ShapesFacts.run_signals_spec
                (KeyGenerationWorker.new (age_keygen_path w)) env) as H.
  inversion H as [m' Hm E|priv pub _ _ E|priv _ E];
    try rewrite <- E in Hin;
    repeat (destruct Hin as [Hin|Hin]; [try discriminate Hin|]);
    try contradiction.
  injection Hin as ->.
  apply Success.failure_message_nonempty in Hm.
  rewrite (dialogs_of_failed_run m _ _ _ Hm).
  rewrite WindowTable.error_title. reflexivity.
Qed.

Lemma failing_attempt_reported_twice_witness :
  dialogs (generation_attempt Inputs.prints_hello (init "age-keygen"))
  = [critical "Error" "No valid Private Key found";
     critical "Error" "No valid Private Key found"].
Proof.
  apply (failing_attempt_reported_twice Inputs.prints_hello
           (init "age-keygen") "No valid Private Key found").
  vm_compute. right. right. right. left. reflexivity.
Defined.

End ErrorReports.

(** ** Copy and save *)

Module KeyActions.
Import AgeKeyGeneratorWindow Inputs.

Lemma no_key_true is_private w :
  key_edit is_private w = ""
  \/ Py.strip (key_edit is_private w)
     = Py.strip (placeholder_text is_private) ->
  no_key is_private w = true.
Proof.
  unfold no_key, displayed_key, placeholder_key. intros [->| ->].
  - reflexivity.
  - rewrite String.eqb_refl. apply orb_true_r.
Qed.

(** C10: a copy or a save asked for while the key field is empty, or
    equal once trimmed to its trimmed placeholder text, shows the warning
    "Please generate a valid key first" and does nothing else: no save
    dialog, no change of the clipboard, of the files or of the two key
    fields. *)
Theorem no_key_only_warns os is_private w :
  key_edit is_private w = ""
  \/ Py.strip (key_edit is_private w)
     = Py.strip (placeholder_text is_private) ->
  let warned :=
    show (warning "Warning" "Please generate a valid key first") w in
  _copy_key is_private w = warned
  /\ _save_key os is_private w = warned
  /\ dialogs warned
     = dialogs w ++ [warning "Warning" "Please generate a valid key first"]
  /\ clipboard warned = clipboard w
  /\ files warned = files w
  /\ syscalls warned = syscalls w
  /\ private_key_edit warned = private_key_edit w
  /\ public_key_edit warned = public_key_edit w.
Proof.
  intros H. apply no_key_true in H.
  unfold _copy_key, _save_key. rewrite H.
  rewrite WindowTable.warning_title, WindowTable.msg_no_key.
  repeat split.
Qed.

Lemma no_key_only_warns_witness :
  let warned :=
    show (warning "Warning" "Please generate a valid key first")
      generating in
  _copy_key true generating = warned
  /\ _save_key posix true generating = warned
  /\ dialogs warned
     = dialogs generating
       ++ [warning "Warning" "Please generate a valid key first"]
  /\ clipboard warned = clipboard generating
  /\ files warned = files generating
  /\ syscalls warned = syscalls generating
  /\ private_key_edit warned = private_key_edit generating
  /\ public_key_edit warned = public_key_edit generating.
Proof.
  apply (no_key_only_warns posix true generating).
  right. reflexivity.
Defined.

(** C8: on a POSIX system, a save of a displayed key to a chosen path
    that can be opened for writing writes the key and then, for the
    private key, calls [chmod] with mode 0600 on the file, which has that
    mode when the call succeeds; for the public key it makes no other
    call, and the file has the mode that opening it for writing left: the
    one it had, or the creation mode. *)
Theorem save_mode os is_private w chosen :
  os_name os = "posix" ->
  no_key is_private w = false ->
  getSaveFileName os "Save" (default_name is_private)
    (file_filter is_private) = chosen ->
  chosen <> "" ->
  open_error os (target_path is_private chosen) = None ->
  let key := displayed_key is_private w in
  let path := target_path is_private chosen in
  let w' := _save_key os is_private w in
  (is_private = true ->
     syscalls w' = syscalls w ++ [open_w path key; chmod path 384]
     /\ (chmod_error os path = None ->
         files w' !! path = Some {| content := key; mode := 384 |}))
  /\ (is_private = false ->
      path = chosen
      /\ syscalls w' = syscalls w ++ [open_w path key]
      /\ files w' !! path
         = Some {| content := key;
                   mode := match files w !! path with
                           | Some f => mode f
                           | None => creation_mode os
                           end |}).
Proof.
  intros Hos Hkey Hpath Hchosen Hopen. cbv zeta.
  unfold _save_key. rewrite Hkey, WindowTable.btn_save, Hpath.
  destruct chosen as [|c chosen]; [congruence|]. cbn [Py.is_empty].
  rewrite Hopen, Hos. cbn [String.eqb Ascii.eqb Bool.eqb andb].
  split; intros ->.
  - cbn [andb]. split.
    + destruct (chmod_error os _); cbn; rewrite <- app_assoc; reflexivity.
    + intros ->. cbn. apply lookup_insert_eq.
  - cbn [andb]. repeat split. cbn. apply lookup_insert_eq.
Qed.

Lemma save_mode_witness :
  syscalls (_save_key posix true displaying)
  = [open_w "/home/u/id.key" "AGE-SECRET-KEY-1ABCDEF";
     chmod "/home/u/id.key" 384]
  /\ files (_save_key posix true displaying) !! "/home/u/id.key"
     = Some {| content := "AGE-SECRET-KEY-1ABCDEF"; mode := 384 |}.
Proof.
  destruct (save_mode posix true displaying "/home/u/id"
              eq_refl eq_refl eq_refl ltac:(discriminate) eq_refl)
    as [Hprivate _].
  destruct (Hprivate eq_refl) as [Hcalls Hmode].
  split; [exact Hcalls|exact (Hmode eq_refl)].
Defined.

End KeyActions.

(** ** More facts about trimming *)

Module StripFacts.

Lemma lstrip_head s :
  Py.lstrip s = ""
  \/ exists c t, Py.lstrip s = String c t /\ Py.isspace c = false.
Proof.
  induction s as [|c s IH]; [left; reflexivity|].
  simpl. destruct (Py.isspace c) eqn:E; [exact IH|].
  right. exists c, s. split; [reflexivity|exact E].
Qed.

Lemma rstrip_head c t :
  Py.isspace c = false -> exists t', Py.rstrip (String c t) = String c t'.
Proof.
  intros E. simpl. destruct (Py.rstrip t) as [|d r].
  - rewrite E. exists "". reflexivity.
  - exists (String d r). reflexivity.
Qed.

Lemma rstrip_idem s : Py.rstrip (Py.rstrip s) = Py.rstrip s.
Proof.
  induction s as [|c s IH]; [reflexivity|].
  simpl. destruct (Py.rstrip s) as [|d r] eqn:E.
  - destruct (Py.isspace c) eqn:Ec; [reflexivity|].
    simpl. rewrite Ec. reflexivity.
  - change (Py.rstrip (String c (String d r)))
      with (match Py.rstrip (String d r) with
            | "" => if Py.isspace c then "" else String c ""
            | String a b => String c (String a b)
            end).
    rewrite IH. reflexivity.
Qed.

(** Trimming a trimmed text changes nothing. *)
Lemma strip_idem s : Py.strip (Py.strip s) = Py.strip s.
Proof.
  unfold Py.strip. destruct (lstrip_head s) as [->|(c & t & -> & Ec)].
  - reflexivity.
  - destruct (rstrip_head c t Ec) as [t' E]. rewrite E.
    simpl Py.lstrip. rewrite Ec. rewrite <- E. apply rstrip_idem.
Qed.

End StripFacts.

(** ** More about the runs of the worker *)

Module WorkerFacts.
Import KeyGenerationWorker.

(** The first loop stops at the first line that, trimmed, starts with the
    prefix. *)
Lemma extract_private_key_first before line after :
  (forall l, In l before ->
     Py.startswith (Py.strip l) "AGE-SECRET-KEY-" = false) ->
  Py.startswith (Py.strip line) "AGE-SECRET-KEY-" = true ->
  extract_private_key (before ++ line :: after) = Py.strip line.
Proof.
  induction before as [|b before IH]; intros Hb Hl; cbn [app extract_private_key].
  - rewrite Hl. reflexivity.
  - rewrite (Hb b (or_introl eq_refl)).
    apply IH; [|exact Hl]. intros l Hin. apply Hb. right. exact Hin.
Qed.

(** What either loop finds is a trimmed text. *)
Lemma extract_private_key_trimmed lines :
  Py.strip (extract_private_key lines) = extract_private_key lines.
Proof.
  induction lines as [|line rest IH]; cbn [extract_private_key];
    [reflexivity|].
  destruct (Py.startswith (Py.strip line) "AGE-SECRET-KEY-");
    [apply StripFacts.strip_idem|exact IH].
Qed.

Lemma extract_public_key_trimmed lines :
  Py.strip (extract_public_key lines) = extract_public_key lines.
Proof.
  induction lines as [|line rest IH]; cbn [extract_public_key];
    [reflexivity|].
  destruct (Py.startswith (Py.strip line) "age1");
    [apply StripFacts.strip_idem|].
  destruct (Py.startswith (Py.strip line) "# public key:");
    [apply StripFacts.strip_idem|exact IH].
Qed.

Section Generic.
Variable env : Env.
Variable self : t.

(** The calls of [subprocess.run] in a run: the primary one, and after
    it at most the derivation for a private key that was found. *)
Lemma calls_of_run :
  calls (trace env self) = [primary_request self]
  \/ exists private_key,
       Py.startswith private_key "AGE-SECRET-KEY-" = true
       /\ calls (trace env self)
          = [primary_request self; derive_request self private_key].
Proof.
  destruct (start_error env [age_keygen_path self]) as [m|] eqn:Hs.
  { left. rewrite (RunCases.not_started env self m Hs). reflexivity. }
  destruct (child env [age_keygen_path self] None)
    as [rc out err|] eqn:Hc.
  2: { left. rewrite (RunCases.overrun env self Hs Hc). reflexivity. }
  destruct (Z.eq_dec rc 0%Z) as [->|Hrc].
  2: { left. rewrite (RunCases.exited_nonzero env self rc out err Hs Hc Hrc).
       reflexivity. }
  destruct (string_dec
              (extract_private_key (Py.splitlines (out +:+ err))) "")
    as [Hpriv|Hpriv].
  { left. rewrite (RunCases.no_private_key env self out err Hs Hc Hpriv).
    reflexivity. }
  destruct (string_dec
              (extract_public_key (Py.splitlines (out +:+ err))) "")
    as [Hpub|Hpub].
  - right. exists (extract_private_key (Py.splitlines (out +:+ err))).
    split; [apply ScanFacts.extract_private_key_prefix, Hpriv|].
    rewrite (RunCases.public_key_derived env self out err Hs Hc Hpriv Hpub).
    unfold derivation.
    destruct (start_error env [age_keygen_path self; "-y"]); reflexivity.
  - left. rewrite (RunCases.public_key_found env self out err Hs Hc Hpriv Hpub).
    reflexivity.
Qed.

(** Nothing is ever written to the standard input of a child. *)
Lemma fed_of_run : fed (trace env self) = [].
Proof.
  destruct (start_error env [age_keygen_path self]) as [m|] eqn:Hs.
  { rewrite (RunCases.not_started env self m Hs). reflexivity. }
  destruct (child env [age_keygen_path self] None)
    as [rc out err|] eqn:Hc.
  2: { rewrite (RunCases.overrun env self Hs Hc). reflexivity. }
  destruct (Z.eq_dec rc 0%Z) as [->|Hrc].
  2: { rewrite (RunCases.exited_nonzero env self rc out err Hs Hc Hrc).
       reflexivity. }
  destruct (string_dec
              (extract_private_key (Py.splitlines (out +:+ err))) "")
    as [Hpriv|Hpriv].
  { rewrite (RunCases.no_private_key env self out err Hs Hc Hpriv).
    reflexivity. }
  destruct (string_dec
              (extract_public_key (Py.splitlines (out +:+ err))) "")
    as [Hpub|Hpub].
  - rewrite (RunCases.public_key_derived env self out err Hs Hc Hpriv Hpub).
    unfold derivation.
    destruct (start_error env [age_keygen_path self; "-y"]); reflexivity.
  - rewrite (RunCases.public_key_found env self out err Hs Hc Hpriv Hpub).
    reflexivity.
Qed.
End Generic.

(** X1: when the primary invocation does not end within its timeout of 30
    seconds, the child is killed, no second call is made, and the run
    reports the failure "Operation timed out. Please try again.". *)
Theorem timeout_reported env path :
  start_error env [path] = None ->
  child env [path] None = Overrun ->
  trace env (new path)
  = [Emit started;
     Emit (progress "Initializing...");
     Emit (progress "Executing age-keygen...");
     Call {| argv := [path]; input := NoInput; timeout := 30 |};
     Spawn [path];
     Kill;
     Emit (error "Operation timed out. Please try again.");
     Emit (finished "" "" "Operation timed out. Please try again.")].
Proof.
  intros Hs Hc. rewrite (RunCases.overrun env (new path) Hs Hc).
  unfold prologue, failure, primary_request. table. reflexivity.
Qed.

Lemma timeout_reported_witness :
  trace Cases.hangs (new "age-keygen")
  = [Emit started;
     Emit (progress "Initializing...");
     Emit (progress "Executing age-keygen...");
     Call {| argv := ["age-keygen"]; input := NoInput; timeout := 30 |};
     Spawn ["age-keygen"];
     Kill;
     Emit (error "Operation timed out. Please try again.");
     Emit (finished "" "" "Operation timed out. Please try again.")].
Proof.
  apply (timeout_reported Cases.hangs "age-keygen"); reflexivity.
Defined.



(** X3: every run calls [subprocess.run] once or twice: first the executable
    alone with a timeout of 30, then at most the executable with -y and a
    timeout of 10.  A private key that was found is handed over as input
    only, never as an argument, and nothing is ever written to a child. *)
Theorem calls_of_every_run env path :
  (calls (trace env (new path))
   = [ {| argv := [path]; input := NoInput; timeout := 30 |} ]
   \/ exists private_key,
        Py.startswith private_key "AGE-SECRET-KEY-" = true
        /\ calls (trace env (new path))
           = [ {| argv := [path]; input := NoInput; timeout := 30 |};
               {| argv := [path; "-y"];
                  input := BytesInput (Py.encode_utf8 private_key);
                  timeout := 10 |} ])
  /\ fed (trace env (new path)) = [].
Proof.
  split; [exact (calls_of_run env (new path))|exact (fed_of_run env (new path))].
Qed.

(** X4: a run that emits [error] emits nothing but the two signals before
    the call, the error, and [finished] with the same, non-empty message
    and empty keys; a run that reports success emits no [error]. *)
Theorem error_and_finished_agree env path :
  (forall m,
     In (error m) (signals (trace env (new path))) ->
     m <> ""
     /\ signals (trace env (new path))
        = [started;
           progress "Initializing...";
           progress "Executing age-keygen...";
           error m;
           finished "" "" m])
  /\ (forall private_key public_key m,
        In (finished private_key public_key "")
           (signals (trace env (new path))) ->
        ~ In (error m) (signals (trace env (new path)))).
Proof.
  pose proof (ShapesFacts.run_signals_spec (new path) env) as H.
  split.
  - intros m Hin.
    inversion H as [m' Hm E|priv pub _ _ E|priv _ E];
      try rewrite <- E in Hin;
      repeat (destruct Hin as [Hin|Hin]; [try discriminate Hin|]);
      try contradiction.
    injection Hin as ->.
    split; [exact (Success.failure_message_nonempty path m Hm)|].
    table. reflexivity.
  - intros priv0 pub0 m Hfin Hin.
    inversion H as [m' Hm E|priv pub _ _ E|priv _ E];
      try rewrite <- E in Hin; try rewrite <- E in Hfin;
      repeat (destruct Hin as [Hin|Hin]; [try discriminate Hin|]);
      try contradiction.
    injection Hin as ->.
    apply Success.failure_message_nonempty in Hm.
    repeat (destruct Hfin as [Hfin|Hfin]; [try discriminate Hfin|]);
      try contradiction.
    injection Hfin as _ _ Hm'. contradiction.
Qed.

Lemma error_and_finished_agree_witness :
  "No valid Private Key found" <> ""
  /\ signals (trace Inputs.prints_hello (new "age-keygen"))
     = [started;
        progress "Initializing...";
        progress "Executing age-keygen...";
        error "No valid Private Key found";
        finished "" "" "No valid Private Key found"].
Proof.
  apply (proj1 (error_and_finished_agree Inputs.prints_hello "age-keygen")).
  vm_compute. do 3 right. left. reflexivity.
Defined.

End WorkerFacts.

(** ** The keys a run reports *)

Module ReportedKeys.
Import KeyGenerationWorker.

(** The private key of a run whose output holds a key line. *)
Lemma reported_private_key env self out err :
  start_error env [age_keygen_path self] = None ->
  child env [age_keygen_path self] None = Exited 0 out err ->
  extract_private_key (Py.splitlines (out +:+ err)) <> "" ->
  exists public_key,
    last (signals (trace env self))
    = Some (finished (extract_private_key (Py.splitlines (out +:+ err)))
              public_key "").
Proof.
  intros Hs Hc Hpriv.
  destruct (string_dec
              (extract_public_key (Py.splitlines (out +:+ err))) "")
    as [Hpub|Hpub].
  - exists (getitem (strings self) "ERROR_EXPORT_PUBLIC").
    rewrite (RunCases.public_key_derived env self out err Hs Hc Hpriv Hpub).
    rewrite !signals_app, ShapesFacts.signals_derivation. reflexivity.
  - exists (extract_public_key (Py.splitlines (out +:+ err))).
    rewrite (RunCases.public_key_found env self out err Hs Hc Hpriv Hpub).
    reflexivity.
Qed.

(** X5: of several key lines in the output the first one, trimmed, is the
    private key the run reports, whatever follows it. *)
Theorem first_key_line_wins env path out err before line after :
  start_error env [path] = None ->
  child env [path] None = Exited 0 out err ->
  Py.splitlines (out +:+ err) = before ++ line :: after ->
  (forall l, In l before ->
     Py.startswith (Py.strip l) "AGE-SECRET-KEY-" = false) ->
  Py.startswith (Py.strip line) "AGE-SECRET-KEY-" = true ->
  exists public_key,
    last (signals (trace env (new path)))
    = Some (finished (Py.strip line) public_key "").
Proof.
  intros Hs Hc Hlines Hbefore Hline.
  pose proof (WorkerFacts.extract_private_key_first before line after
                Hbefore Hline) as Hfirst.
  rewrite <- Hlines in Hfirst.
  assert (Hpriv : extract_private_key (Py.splitlines (out +:+ err)) <> "").
  { rewrite Hfirst. intros E. rewrite E in Hline. discriminate. }
  destruct (reported_private_key env (new path) out err Hs Hc Hpriv)
    as [pub Hlast].
  exists pub. rewrite Hlast, Hfirst. reflexivity.
Qed.

Lemma first_key_line_wins_witness :
  exists public_key,
    last (signals (trace Cases.two_keys (new "age-keygen")))
    = Some (finished (Py.strip " AGE-SECRET-KEY-1FIRST ") public_key "").
Proof.
  apply (first_key_line_wins Cases.two_keys "age-keygen"
           ("# note" +:+ LF +:+ " AGE-SECRET-KEY-1FIRST " +:+ LF
            +:+ "AGE-SECRET-KEY-1SECOND" +:+ LF +:+ "age1xyz" +:+ LF) ""
           ["# note"] " AGE-SECRET-KEY-1FIRST "
           ["AGE-SECRET-KEY-1SECOND"; "age1xyz"]).
  - reflexivity.
  - reflexivity.
  - reflexivity.
  - intros l [<-|[]]. reflexivity.
  - reflexivity.
Defined.

(** Where the keys of a [finished] signal without error come from. *)
Lemma finished_keys env self private_key public_key :
  In (finished private_key public_key "") (signals (trace env self)) ->
  (private_key = "" /\ public_key = "")
  \/ exists lines,
       private_key = extract_private_key lines
       /\ (public_key = extract_public_key lines
           \/ public_key = getitem (strings self) "ERROR_EXPORT_PUBLIC").
Proof.
  intros Hin.
  destruct (start_error env [age_keygen_path self]) as [m|] eqn:Hs.
  { rewrite (RunCases.not_started env self m Hs) in Hin. cbn in Hin.
    repeat (destruct Hin as [Hin|Hin]; [try discriminate Hin|]);
      try contradiction.
    injection Hin as <- <- _. left. split; reflexivity. }
  destruct (child env [age_keygen_path self] None)
    as [rc out err|] eqn:Hc.
  2: { rewrite (RunCases.overrun env self Hs Hc) in Hin. cbn in Hin.
       repeat (destruct Hin as [Hin|Hin]; [try discriminate Hin|]);
         try contradiction.
       injection Hin as <- <- _. left. split; reflexivity. }
  destruct (Z.eq_dec rc 0%Z) as [->|Hrc].
  2: { rewrite (RunCases.exited_nonzero env self rc out err Hs Hc Hrc) in Hin.
       cbn in Hin.
       repeat (destruct Hin as [Hin|Hin]; [try discriminate Hin|]);
         try contradiction.
       injection Hin as <- <- _. left. split; reflexivity. }
  destruct (string_dec
              (extract_private_key (Py.splitlines (out +:+ err))) "")
    as [Hpriv|Hpriv].
  { rewrite (RunCases.no_private_key env self out err Hs Hc Hpriv) in Hin.
    cbn in Hin.
    repeat (destruct Hin as [Hin|Hin]; [try discriminate Hin|]);
      try contradiction.
    injection Hin as <- <- _. left. split; reflexivity. }
  right. exists (Py.splitlines (out +:+ err)).
  destruct (string_dec
              (extract_public_key (Py.splitlines (out +:+ err))) "")
    as [Hpub|Hpub].
  - rewrite (RunCases.public_key_derived env self out err Hs Hc Hpriv Hpub)
      in Hin.
    rewrite !signals_app, ShapesFacts.signals_derivation in Hin.
    cbn in Hin.
    repeat (destruct Hin as [Hin|Hin]; [try discriminate Hin|]);
      try contradiction.
    injection Hin as <- <-. split; [reflexivity|right; reflexivity].
  - rewrite (RunCases.public_key_found env self out err Hs Hc Hpriv Hpub)
      in Hin.
    cbn in Hin.
    repeat (destruct Hin as [Hin|Hin]; [try discriminate Hin|]);
      try contradiction.
    injection Hin as <- <-. split; [reflexivity|left; reflexivity].
Qed.

(** X6: the keys of a successful run carry no white space at either end:
    trimming them changes nothing. *)
Theorem reported_keys_trimmed env path private_key public_key :
  In (finished private_key public_key "") (signals (trace env (new path))) ->
  Py.strip private_key = private_key /\ Py.strip public_key = public_key.
Proof.
  intros Hin.
  destruct (finished_keys env (new path) _ _ Hin)
    as [[-> ->]|(lines & -> & [->| ->])].
  - split; reflexivity.
  - split; [apply WorkerFacts.extract_private_key_trimmed
           |apply WorkerFacts.extract_public_key_trimmed].
  - split; [apply WorkerFacts.extract_private_key_trimmed|].
    table. reflexivity.
Qed.

Lemma reported_keys_trimmed_witness :
  Py.strip "AGE-SECRET-KEY-1FIRST" = "AGE-SECRET-KEY-1FIRST"
  /\ Py.strip "age1xyz" = "age1xyz".
Proof.
  apply (reported_keys_trimmed Cases.two_keys "age-keygen").
  vm_compute. do 5 right. left. reflexivity.
Defined.

End ReportedKeys.

(** ** What a generation attempt does to the window *)

Module AttemptFacts.
Import AgeKeyGeneratorWindow.

(** No slot touches the clipboard or the files. *)
Lemma deliver_frame w s :
  clipboard (deliver w s) = clipboard w
  /\ files (deliver w s) = files w
  /\ syscalls (deliver w s) = syscalls w.
Proof.
  destruct s as [|message|private_key public_key error_text|message];
    try (repeat split; reflexivity).
  destruct error_text; repeat split; reflexivity.
Qed.

Lemma fold_deliver_frame sigs w :
  clipboard (fold_left deliver sigs w) = clipboard w
  /\ files (fold_left deliver sigs w) = files w
  /\ syscalls (fold_left deliver sigs w) = syscalls w.
Proof.
  revert w. induction sigs as [|s sigs IH]; intros w;
    [repeat split; reflexivity|].
  cbn [fold_left]. destruct (IH (deliver w s)) as (-> & -> & ->).
  apply deliver_frame.
Qed.

(** A text that starts with a prefix no key of the table starts with is
    no key of the table. *)
Lemma prefix_not_key pfx k (table : list (string * string)) :
  Py.startswith k pfx = true ->
  forallb (fun kv => negb (Py.startswith (fst kv) pfx)) table = true ->
  (list_to_map table : gmap string string) !! k = None.
Proof.
  intros Hk. induction table as [|[key text] table IH]; intros Hall.
  - apply lookup_empty.
  - cbn [forallb fst] in Hall. apply andb_prop in Hall as [Hkey Hrest].
    cbn [list_to_map foldr]. rewrite lookup_insert_ne.
    + apply IH, Hrest.
    + cbn [fst]. intros E. subst key. rewrite Hk in Hkey. discriminate.
Qed.

Lemma private_key_not_key k :
  Py.startswith k "AGE-SECRET-KEY-" = true -> text_for k = k.
Proof.
  intros Hk. unfold text_for, strings, _load_strings.
  rewrite (prefix_not_key "AGE-SECRET-KEY-" k _ Hk); reflexivity.
Qed.

Lemma age1_not_key k : Py.startswith k "age1" = true -> text_for k = k.
Proof.
  intros Hk. unfold text_for, strings, _load_strings.
  rewrite (prefix_not_key "age1" k _ Hk); reflexivity.
Qed.

Lemma finished_with_error_text private_key public_key m w :
  m <> "" ->
  _on_generation_finished private_key public_key m w
  = _on_generation_error m w.
Proof.
  intros H. unfold _on_generation_finished.
  destruct m; [congruence|reflexivity].
Qed.

(** The window after the signals of a failed run and of a successful
    one. *)
Lemma after_failed_run i r m w :
  m <> "" ->
  fold_left deliver
    [started; progress i; progress r; error m; finished "" "" m] w
  = _on_generation_error m
      (_on_generation_error m
         (_on_generation_progress r (_on_generation_progress i w))).
Proof.
  intros H. cbn [fold_left deliver].
  rewrite (finished_with_error_text "" "" m _ H). reflexivity.
Qed.

Lemma after_successful_run sigs private_key public_key w :
  fold_left deliver (sigs ++ [finished private_key public_key ""]) w
  = set_generate_btn true
      (set_status_label (getitem strings "STATUS_SUCCESS")
         (set_public_key_edit (text_for public_key)
            (set_private_key_edit (text_for private_key)
               (fold_left deliver sigs w)))).
Proof. rewrite fold_left_app. reflexivity. Qed.

(** Progress messages leave the two key fields alone. *)
Lemma progress_keeps_keys msgs w :
  private_key_edit (fold_left deliver (started :: map progress msgs) w)
  = private_key_edit w
  /\ public_key_edit (fold_left deliver (started :: map progress msgs) w)
     = public_key_edit w.
Proof.
  cbn [fold_left deliver]. revert w.
  induction msgs as [|m msgs IH]; intros w; [split; reflexivity|].
  cbn [map fold_left deliver]. destruct (IH (_on_generation_progress m w))
    as [-> ->]. split; reflexivity.
Qed.

(** The signals of a run for the window, in the three forms of
    [Shapes.run_signals] with the texts of the table. *)
Lemma attempt_signals env path :
  (exists m,
     m <> ""
     /\ signals (KeyGenerationWorker.trace env (KeyGenerationWorker.new path))
        = [started; progress "Initializing...";
           progress "Executing age-keygen..."; error m; finished "" "" m])
  \/ (exists msgs private_key public_key,
        Py.startswith private_key "AGE-SECRET-KEY-" = true
        /\ public_key <> ""
        /\ signals (KeyGenerationWorker.trace env
                      (KeyGenerationWorker.new path))
           = (started :: map progress msgs)
             ++ [finished private_key public_key ""]).
Proof.
  pose proof (ShapesFacts.run_signals_spec (KeyGenerationWorker.new path) env)
    as H.
  inversion H as [m Hm E|priv pub Hpriv Hpub E|priv Hpriv E].
  - left. exists m. split.
    + exact (Success.failure_message_nonempty path m Hm).
    + table. reflexivity.
  - right.
    exists [getitem _load_strings "STATUS_INITIALIZING";
            getitem _load_strings "STATUS_RUNNING";
            getitem _load_strings "STATUS_EXTRACTING_PUBLIC";
            getitem _load_strings "STATUS_DONE"], priv, pub.
    repeat split; assumption.
  - right.
    exists [getitem _load_strings "STATUS_INITIALIZING";
            getitem _load_strings "STATUS_RUNNING";
            getitem _load_strings "STATUS_EXTRACTING_PUBLIC";
            getitem _load_strings "STATUS_EXPORTING_PUBLIC";
            getitem _load_strings "STATUS_DONE"], priv,
      (getitem _load_strings "ERROR_EXPORT_PUBLIC").
    repeat split; [assumption|rewrite Table.error_export_public; discriminate].
Qed.

(** X8: whatever the executable does, an attempt ends with the generate
    button enabled again and the status "Key Generation Successful!" or
    "An Error Occurred", and it leaves the clipboard and the files
    alone. *)
Theorem attempt_rearms env w :
  let w' := generation_attempt env w in
  generate_btn w' = true
  /\ (status_label w' = "Key Generation Successful!"
      \/ status_label w' = "An Error Occurred")
  /\ clipboard w' = clipboard w
  /\ files w' = files w
  /\ syscalls w' = syscalls w.
Proof.
  cbv zeta. unfold generation_attempt.
  destruct (fold_deliver_frame
              (signals (KeyGenerationWorker.trace env
                          (KeyGenerationWorker.new (age_keygen_path w))))
              (_start_key_generation w)) as (Hc & Hf & Hs).
  rewrite Hc, Hf, Hs.
  destruct (attempt_signals env (age_keygen_path w))
    as [(m & Hm & ->)|(msgs & priv & pub & _ & _ & ->)].
  - rewrite (after_failed_run _ _ m _ Hm).
    repeat split. right. reflexivity.
  - rewrite after_successful_run.
    repeat split. left. reflexivity.
Qed.

End AttemptFacts.

(** ** The key fields after an attempt *)

Module DisplayFacts.
Import AgeKeyGeneratorWindow.

(** The [finished] signal of a run that reports success is its last
    signal. *)
Lemma success_is_last env path private_key public_key :
  In (finished private_key public_key "")
     (signals (KeyGenerationWorker.trace env (KeyGenerationWorker.new path))) ->
  Py.startswith private_key "AGE-SECRET-KEY-" = true
  /\ exists msgs,
       signals (KeyGenerationWorker.trace env (KeyGenerationWorker.new path))
       = (started :: map progress msgs)
         ++ [finished private_key public_key ""].
Proof.
  intros Hin.
  destruct (AttemptFacts.attempt_signals env path)
    as [(m & Hm & E)|(msgs & priv & pub & Hpriv & _ & E)]; rewrite E in Hin.
  - repeat (destruct Hin as [Hin|Hin]; [try discriminate Hin|]);
      try contradiction.
    injection Hin as _ _ Hm'. contradiction.
  - change (In (finished private_key public_key "")
              ((started :: map progress msgs) ++ [finished priv pub ""]))
      in Hin.
    apply in_app_or in Hin as [Hin|Hin].
    + destruct Hin as [Hin|Hin]; [discriminate Hin|].
      apply in_map_iff in Hin as (x & Hx & _). discriminate Hx.
    + destruct Hin as [Hin|[]]. injection Hin as <- <-.
      split; [exact Hpriv|]. exists msgs. exact E.
Qed.

(** X9: after a successful attempt the private key field holds the reported
    private key and the status is "Key Generation Successful!".  The
    public key field holds the reported public key, unless that text is a
    key of the string table, in which case it holds the table's text; a
    public key that starts with age1 is shown as it is. *)
Theorem success_displayed env w private_key public_key :
  In (finished private_key public_key "")
     (signals (KeyGenerationWorker.trace env
                 (KeyGenerationWorker.new (age_keygen_path w)))) ->
  let w' := generation_attempt env w in
  private_key_edit w' = private_key
  /\ public_key_edit w'
     = match _load_strings !! public_key with
       | Some text => text
       | None => public_key
       end
  /\ (Py.startswith public_key "age1" = true ->
      public_key_edit w' = public_key)
  /\ status_label w' = "Key Generation Successful!".
Proof.
  intros Hin. cbv zeta. unfold generation_attempt.
  destruct (success_is_last env _ _ _ Hin) as (Hpriv & msgs & ->).
  rewrite AttemptFacts.after_successful_run.
  repeat split.
  - apply AttemptFacts.private_key_not_key, Hpriv.
  - intros Hpub. apply AttemptFacts.age1_not_key, Hpub.
Qed.

Lemma success_displayed_witness :
  let w' :=
    generation_attempt Cases.age_keygen (init "age-keygen") in
  private_key_edit w' = "AGE-SECRET-KEY-1ABCDEF"
  /\ public_key_edit w'
     = match _load_strings !! "age1xyz" with
       | Some text => text
       | None => "age1xyz"
       end
  /\ (Py.startswith "age1xyz" "age1" = true -> public_key_edit w' = "age1xyz")
  /\ status_label w' = "Key Generation Successful!".
Proof.
  apply (success_displayed Cases.age_keygen (init "age-keygen")).
  vm_compute. do 5 right. left. reflexivity.
Defined.

(** X10: a failed attempt leaves both key fields with their placeholder
    texts, whatever they showed before, so that a copy or a save right
    after it only gives the warning. *)
Theorem failed_attempt_discards_keys env os w m is_private :
  In (error m)
     (signals (KeyGenerationWorker.trace env
                 (KeyGenerationWorker.new (age_keygen_path w)))) ->
  let w' := generation_attempt env w in
  private_key_edit w'
  = "Click 'Generate New Key Pair' to create a Private Key..."
  /\ public_key_edit w' = "The Public Key will be displayed here..."
  /\ _copy_key is_private w'
     = show (warning "Warning" "Please generate a valid key first") w'
  /\ _save_key os is_private w'
     = show (warning "Warning" "Please generate a valid key first") w'.
Proof.
  intros Hin. cbv zeta. unfold generation_attempt.
  destruct (AttemptFacts.attempt_signals env (age_keygen_path w))
    as [(m' & Hm & E)|(msgs & priv & pub & _ & _ & E)]; rewrite E in Hin |- *.
  - rewrite (AttemptFacts.after_failed_run _ _ m' _ Hm).
    assert (Hno : forall b,
              no_key b
                (_on_generation_error m'
                   (_on_generation_error m'
                      (_on_generation_progress "Executing age-keygen..."
                         (_on_generation_progress "Initializing..."
                            (_start_key_generation w))))) = true)
      by (intros [|]; reflexivity).
    unfold _copy_key, _save_key. rewrite Hno.
    repeat split.
  - exfalso.
    change (In (error m) ((started :: map progress msgs)
                          ++ [finished priv pub ""])) in Hin.
    apply in_app_or in Hin as [Hin|Hin].
    + destruct Hin as [Hin|Hin]; [discriminate Hin|].
      apply in_map_iff in Hin as (x & Hx & _). discriminate Hx.
    + destruct Hin as [Hin|[]]. discriminate Hin.
Qed.

Lemma failed_attempt_discards_keys_witness :
  let w' := generation_attempt Inputs.prints_hello Inputs.displaying in
  private_key_edit w'
  = "Click 'Generate New Key Pair' to create a Private Key..."
  /\ public_key_edit w' = "The Public Key will be displayed here..."
  /\ _copy_key true w'
     = show (warning "Warning" "Please generate a valid key first") w'
  /\ _save_key Inputs.posix true w'
     = show (warning "Warning" "Please generate a valid key first") w'.
Proof.
  apply (failed_attempt_discards_keys Inputs.prints_hello Inputs.posix
           Inputs.displaying "No valid Private Key found" true).
  vm_compute. do 3 right. left. reflexivity.
Defined.

(** The private key field never holds a placeholder text after a
    successful attempt. *)
Lemma key_is_no_placeholder k :
  Py.startswith k "AGE-SECRET-KEY-" = true ->
  Py.is_empty k = false /\ String.eqb k (placeholder_key true) = false.
Proof.
  intros Hk. split.
  - destruct k; [discriminate Hk|reflexivity].
  - apply String.eqb_neq. intros ->. discriminate Hk.
Qed.

(** X11: generate, then copy the private key: the clipboard holds exactly the
    private key the run reported, and the status is "Copied to
    clipboard". *)
Theorem generated_key_copied env w private_key public_key :
  In (finished private_key public_key "")
     (signals (KeyGenerationWorker.trace env
                 (KeyGenerationWorker.new (age_keygen_path w)))) ->
  let w' := _copy_key true (generation_attempt env w) in
  clipboard w' = private_key
  /\ status_label w' = "Copied to clipboard"
  /\ dialogs w' = dialogs w.
Proof.
  intros Hin. cbv zeta.
  assert (Htrim : Py.strip private_key = private_key).
  { destruct (ReportedKeys.finished_keys env _ _ _ Hin)
      as [[-> _]|(lines & -> & _)];
      [reflexivity|apply WorkerFacts.extract_private_key_trimmed]. }
  unfold generation_attempt.
  destruct (success_is_last env _ _ _ Hin) as (Hpriv & msgs & ->).
  rewrite AttemptFacts.after_successful_run.
  destruct (key_is_no_placeholder _ Hpriv) as [Hne Hnp].
  unfold _copy_key, no_key, displayed_key.
  cbn [key_edit private_key_edit set_generate_btn set_status_label
       set_public_key_edit set_private_key_edit].
  rewrite (AttemptFacts.private_key_not_key _ Hpriv), Htrim, Hne, Hnp.
  cbn [orb]. repeat split.
  induction msgs as [|x msgs IH] using rev_ind; [reflexivity|].
  rewrite map_app, app_comm_cons, fold_left_app. exact IH.
Qed.

Lemma generated_key_copied_witness :
  let w' :=
    _copy_key true (generation_attempt Cases.age_keygen (init "age-keygen")) in
  clipboard w' = "AGE-SECRET-KEY-1ABCDEF"
  /\ status_label w' = "Copied to clipboard"
  /\ dialogs w' = dialogs (init "age-keygen").
Proof.
  apply (generated_key_copied Cases.age_keygen (init "age-keygen")
           "AGE-SECRET-KEY-1ABCDEF" "age1xyz").
  vm_compute. do 5 right. left. reflexivity.
Defined.

End DisplayFacts.

(** ** Saves that go wrong, and the name of the key file *)

Module SaveFacts.
Import AgeKeyGeneratorWindow.

Lemma rev_app_app a b acc :
  String.rev_app (a +:+ b) acc = String.rev_app b (String.rev_app a acc).
Proof.
  revert acc. induction a as [|c a IH]; intros acc; [reflexivity|].
  simpl. apply IH.
Qed.

Lemma lower_app a b : Py.lower (a +:+ b) = Py.lower a +:+ Py.lower b.
Proof.
  induction a as [|c a IH]; [reflexivity|].
  simpl. rewrite IH. reflexivity.
Qed.

Lemma endswith_key a : Py.endswith (a +:+ ".key") ".key" = true.
Proof.
  unfold Py.endswith, String.rev. rewrite rev_app_app.
  simpl. destruct (String.rev_app a ""); reflexivity.
Qed.

(** X13: the file a private key is written to always has the extension .key,
    in some case of the letters: a chosen path that has it is kept, any
    other gets .key added.  The path chosen for a public key is kept. *)
Theorem private_path_ends_with_key path :
  Py.endswith (Py.lower (target_path true path)) ".key" = true
  /\ (Py.endswith (Py.lower path) ".key" = true ->
      target_path true path = path)
  /\ (Py.endswith (Py.lower path) ".key" = false ->
      target_path true path = path +:+ ".key")
  /\ target_path false path = path.
Proof.
  unfold target_path.
  destruct (Py.endswith (Py.lower path) ".key") eqn:E; cbn [andb negb].
  - repeat split; [exact E|discriminate].
  - repeat split; [|discriminate].
    rewrite lower_app. apply endswith_key.
Qed.

Lemma private_path_ends_with_key_witness :
  target_path true "id.KEY" = "id.KEY".
Proof.
  apply (proj1 (proj2 (private_path_ends_with_key "id.KEY"))).
  reflexivity.
Defined.

(** X14: a save dialog that is cancelled: nothing but the dialog happens; no
    file is written, no call is made and the status stays. *)
Theorem save_cancelled os is_private w :
  no_key is_private w = false ->
  getSaveFileName os "Save" (default_name is_private)
    (file_filter is_private) = "" ->
  let w' := _save_key os is_private w in
  w' = show (save_file_name "Save" (default_name is_private)
               (file_filter is_private)) w
  /\ files w' = files w
  /\ syscalls w' = syscalls w
  /\ status_label w' = status_label w.
Proof.
  intros Hkey Hpath. cbv zeta. unfold _save_key.
  rewrite Hkey, WindowTable.btn_save, Hpath. repeat split.
Qed.

Lemma save_cancelled_witness :
  let w' := _save_key Cases.cancelled true Inputs.displaying in
  w' = show (save_file_name "Save" (default_name true) (file_filter true))
         Inputs.displaying
  /\ files w' = files Inputs.displaying
  /\ syscalls w' = syscalls Inputs.displaying
  /\ status_label w' = status_label Inputs.displaying.
Proof.
  apply (save_cancelled Cases.cancelled true Inputs.displaying);
    reflexivity.
Defined.

(** X15: a save whose file cannot be opened for writing: the files stay as
    they were, no [chmod] is tried, the user is shown "Save failed: "
    with the text of the exception, and the status does not change. *)
Theorem save_open_failure os is_private w chosen str_e :
  no_key is_private w = false ->
  getSaveFileName os "Save" (default_name is_private)
    (file_filter is_private) = chosen ->
  chosen <> "" ->
  open_error os (target_path is_private chosen) = Some str_e ->
  let w' := _save_key os is_private w in
  files w' = files w
  /\ syscalls w'
     = syscalls w
       ++ [open_w (target_path is_private chosen)
             (displayed_key is_private w)]
  /\ dialogs w'
     = dialogs w
       ++ [save_file_name "Save" (default_name is_private)
             (file_filter is_private);
           critical "Error" ("Save failed: " +:+ str_e)]
  /\ status_label w' = status_label w.
Proof.
  intros Hkey Hpath Hchosen Hopen. cbv zeta. unfold _save_key.
  rewrite Hkey, WindowTable.btn_save, Hpath.
  destruct chosen as [|c chosen]; [congruence|]. cbn [Py.is_empty].
  rewrite Hopen, WindowTable.error_title.
  repeat split. cbn. rewrite <- app_assoc. reflexivity.
Qed.

Lemma save_open_failure_witness :
  let w' := _save_key Cases.read_only true Inputs.displaying in
  files w' = files Inputs.displaying
  /\ syscalls w'
     = syscalls Inputs.displaying
       ++ [open_w (target_path true "/home/u/id")
             (displayed_key true Inputs.displaying)]
  /\ dialogs w'
     = dialogs Inputs.displaying
       ++ [save_file_name "Save" (default_name true) (file_filter true);
           critical "Error" "Save failed: [Errno 13] Permission denied"]
  /\ status_label w' = status_label Inputs.displaying.
Proof.
  apply (save_open_failure Cases.read_only true Inputs.displaying
           "/home/u/id" "[Errno 13] Permission denied");
    [reflexivity|reflexivity|discriminate|reflexivity].
Defined.

(** X16: a private key whose file is written but whose mode cannot be
    changed: the user is shown "Save failed: ..." and the status does not
    change, yet the file stays behind with the key in it and with the mode
    that opening it left, not 0600. *)
Theorem save_chmod_failure os w chosen str_e :
  os_name os = "posix" ->
  no_key true w = false ->
  getSaveFileName os "Save" (default_name true) (file_filter true) = chosen ->
  chosen <> "" ->
  open_error os (target_path true chosen) = None ->
  chmod_error os (target_path true chosen) = Some str_e ->
  let path := target_path true chosen in
  let w' := _save_key os true w in
  files w' !! path
  = Some {| content := displayed_key true w;
            mode := match files w !! path with
                    | Some f => mode f
                    | None => creation_mode os
                    end |}
  /\ dialogs w'
     = dialogs w
       ++ [save_file_name "Save" (default_name true) (file_filter true);
           critical "Error" ("Save failed: " +:+ str_e)]
  /\ status_label w' = status_label w.
Proof.
  intros Hos Hkey Hpath Hchosen Hopen Hchmod. cbv zeta. unfold _save_key.
  rewrite Hkey, WindowTable.btn_save, Hpath.
  destruct chosen as [|c chosen]; [congruence|]. cbn [Py.is_empty].
  rewrite Hopen, Hos. cbn [String.eqb Ascii.eqb Bool.eqb andb].
  rewrite Hchmod, WindowTable.error_title.
  repeat split.
  - cbn. apply lookup_insert_eq.
  - cbn. rewrite <- app_assoc. reflexivity.
Qed.

Lemma save_chmod_failure_witness :
  let w' := _save_key Cases.no_chmod true Inputs.displaying in
  files w' !! "/mnt/usb/id.key"
  = Some {| content := "AGE-SECRET-KEY-1ABCDEF"; mode := 420 |}
  /\ dialogs w'
     = dialogs Inputs.displaying
       ++ [save_file_name "Save" (default_name true) (file_filter true);
           critical "Error" "Save failed: [Errno 1] Operation not permitted"]
  /\ status_label w' = status_label Inputs.displaying.
Proof.
  apply (save_chmod_failure Cases.no_chmod Inputs.displaying
           "/mnt/usb/id.key" "[Errno 1] Operation not permitted");
    [reflexivity|reflexivity|reflexivity|discriminate|reflexivity
    |reflexivity].
Defined.

(** X17: where [os.name] is not "posix", a private key is saved without any
    [chmod]: the file has the mode that opening it left, and the save is
    reported as a success. *)
Theorem save_outside_posix os w chosen :
  os_name os <> "posix" ->
  no_key true w = false ->
  getSaveFileName os "Save" (default_name true) (file_filter true) = chosen ->
  chosen <> "" ->
  open_error os (target_path true chosen) = None ->
  let path := target_path true chosen in
  let w' := _save_key os true w in
  syscalls w' = syscalls w ++ [open_w path (displayed_key true w)]
  /\ files w' !! path
     = Some {| content := displayed_key true w;
               mode := match files w !! path with
                       | Some f => mode f
                       | None => creation_mode os
                       end |}
  /\ status_label w' = "File saved successfully".
Proof.
  intros Hos Hkey Hpath Hchosen Hopen. cbv zeta. unfold _save_key.
  rewrite Hkey, WindowTable.btn_save, Hpath.
  destruct chosen as [|c chosen]; [congruence|]. cbn [Py.is_empty].
  rewrite Hopen. apply String.eqb_neq in Hos. rewrite Hos. cbn [andb].
  rewrite WindowTable.msg_save_success.
  repeat split. cbn. apply lookup_insert_eq.
Qed.

Lemma save_outside_posix_witness :
  let w' := _save_key Cases.windows true Inputs.displaying in
  syscalls w'
  = syscalls Inputs.displaying
    ++ [open_w "C:/keys/id.key" (displayed_key true Inputs.displaying)]
  /\ files w' !! "C:/keys/id.key"
     = Some {| content := displayed_key true Inputs.displaying; mode := 438 |}
  /\ status_label w' = "File saved successfully".
Proof.
  apply (save_outside_posix Cases.windows Inputs.displaying "C:/keys/id");
    [discriminate|reflexivity|reflexivity|discriminate|reflexivity].
Defined.

End SaveFacts.

(** ** The locator and the start of the window *)

Module LocatorFacts.
Import Locator.




End LocatorFacts.

(** ** The two streams of the executable *)

Module Streams.
Import KeyGenerationWorker.

Lemma splitlines_from_nonempty c s : Py.splitlines_from false (String c s) <> [].
Proof.
  cbn [Py.splitlines_from andb].
  destruct (Py.is_linebreak c); [discriminate|].
  destruct (Py.splitlines_from false s); discriminate.
Qed.

(** Behind a line feed the lines of what follows are read on their
    own. *)
Lemma splitlines_from_app_lf after_cr a b :
  Py.splitlines_from after_cr ((a +:+ LF) +:+ b)
  = Py.splitlines_from after_cr (a +:+ LF) ++ Py.splitlines b.
Proof.
  revert after_cr. induction a as [|c a IH]; intros after_cr.
  - destruct after_cr; reflexivity.
  - change ((String c a +:+ LF) +:+ b) with (String c ((a +:+ LF) +:+ b)).
    change (String c a +:+ LF) with (String c (a +:+ LF)).
    cbn [Py.splitlines_from].
    destruct (after_cr && Py.is_lf c); [apply IH|].
    destruct (Py.is_linebreak c).
    + rewrite IH. reflexivity.
    + rewrite IH.
      destruct (Py.splitlines_from false (a +:+ LF)) as [|l ls] eqn:E.
      * exfalso. destruct a; revert E.
        -- discriminate.
        -- apply splitlines_from_nonempty.
      * reflexivity.
Qed.

Lemma splitlines_app_lf a b :
  Py.splitlines ((a +:+ LF) +:+ b)
  = Py.splitlines (a +:+ LF) ++ Py.splitlines b.
Proof. apply splitlines_from_app_lf. Qed.

(** The first loop over two lists of lines: the second list is read only
    when the first holds no key line. *)
Lemma extract_private_key_app l1 l2 :
  extract_private_key (l1 ++ l2)
  = if Py.is_empty (extract_private_key l1) then extract_private_key l2
    else extract_private_key l1.
Proof.
  induction l1 as [|line l1 IH]; [reflexivity|].
  cbn [app extract_private_key].
  destruct (Py.startswith (Py.strip line) "AGE-SECRET-KEY-") eqn:E;
    [|exact IH].
  destruct (Py.strip line); [discriminate E|reflexivity].
Qed.

(** X7: the two streams are joined with nothing in between, standard output
    first: when standard output ends with a line feed and holds a key
    line, the private key reported is the first key line of standard
    output, whatever standard error holds. *)
Theorem stdout_before_stderr env path out err :
  start_error env [path] = None ->
  child env [path] None = Exited 0 (out +:+ LF) err ->
  extract_private_key (Py.splitlines (out +:+ LF)) <> "" ->
  exists public_key,
    last (signals (trace env (new path)))
    = Some (finished (extract_private_key (Py.splitlines (out +:+ LF)))
              public_key "").
Proof.
  intros Hs Hc Hkey.
  assert (E : extract_private_key (Py.splitlines ((out +:+ LF) +:+ err))
              = extract_private_key (Py.splitlines (out +:+ LF))).
  { rewrite splitlines_app_lf, extract_private_key_app.
    destruct (extract_private_key (Py.splitlines (out +:+ LF)));
      [congruence|reflexivity]. }
  destruct (ReportedKeys.reported_private_key env (new path)
              (out +:+ LF) err Hs Hc) as [pub Hlast].
  - rewrite E. exact Hkey.
  - exists pub. rewrite Hlast, E. reflexivity.
Qed.

Lemma stdout_before_stderr_witness :
  exists public_key,
    last (signals (trace Cases.both_streams (new "age-keygen")))
    = Some (finished
              (extract_private_key
                 (Py.splitlines ("AGE-SECRET-KEY-1OUT" +:+ LF)))
              public_key "").
Proof.
  apply (stdout_before_stderr Cases.both_streams "age-keygen"
           "AGE-SECRET-KEY-1OUT"
           ("AGE-SECRET-KEY-1ERR" +:+ LF +:+ "age1xyz" +:+ LF)).
  - reflexivity.
  - reflexivity.
  - discriminate.
Defined.

End Streams.

(** ** Generate, then save *)

Module SavedKey.
Import AgeKeyGeneratorWindow.

(** The private key a copy or a save reads after a successful attempt. *)
Lemma displayed_after_success env w private_key public_key :
  In (finished private_key public_key "")
     (signals (KeyGenerationWorker.trace env
                 (KeyGenerationWorker.new (age_keygen_path w)))) ->
  displayed_key true (generation_attempt env w) = private_key
  /\ no_key true (generation_attempt env w) = false
  /\ files (generation_attempt env w) = files w.
Proof.
  intros Hin.
  assert (Htrim : Py.strip private_key = private_key).
  { destruct (ReportedKeys.finished_keys env _ _ _ Hin)
      as [[-> _]|(lines & -> & _)];
      [reflexivity|apply WorkerFacts.extract_private_key_trimmed]. }
  assert (Hfiles : files (generation_attempt env w) = files w).
  { unfold generation_attempt.
    destruct (AttemptFacts.fold_deliver_frame
                (signals (KeyGenerationWorker.trace env
                            (KeyGenerationWorker.new (age_keygen_path w))))
                (_start_key_generation w)) as (_ & -> & _).
    reflexivity. }
  split; [|split; [|exact Hfiles]]; unfold generation_attempt;
    destruct (DisplayFacts.success_is_last env _ _ _ Hin)
      as (Hpriv & msgs & ->);
    rewrite AttemptFacts.after_successful_run;
    destruct (DisplayFacts.key_is_no_placeholder _ Hpriv) as [Hne Hnp];
    unfold no_key, displayed_key;
    cbn [key_edit private_key_edit set_generate_btn set_status_label
         set_public_key_edit set_private_key_edit];
    rewrite (AttemptFacts.private_key_not_key _ Hpriv), Htrim.
  - reflexivity.
  - rewrite Hne, Hnp. reflexivity.
Qed.

(** X12: generate, then save the private key on a POSIX system where the
    calls succeed: the file, whose name ends with .key, holds exactly the
    private key the run reported and has mode 0600. *)
Theorem generated_key_saved env os w private_key public_key chosen :
  In (finished private_key public_key "")
     (signals (KeyGenerationWorker.trace env
                 (KeyGenerationWorker.new (age_keygen_path w)))) ->
  os_name os = "posix" ->
  getSaveFileName os "Save" (default_name true) (file_filter true) = chosen ->
  chosen <> "" ->
  open_error os (target_path true chosen) = None ->
  chmod_error os (target_path true chosen) = None ->
  let w' := _save_key os true (generation_attempt env w) in
  files w' !! target_path true chosen
  = Some {| content := private_key; mode := 384 |}
  /\ status_label w' = "File saved successfully".
Proof.
  intros Hin Hos Hpath Hchosen Hopen Hchmod. cbv zeta.
  destruct (displayed_after_success env w _ _ Hin) as (Hkey & Hno & _).
  unfold _save_key. rewrite Hno, Hkey, WindowTable.btn_save, Hpath.
  destruct chosen as [|c chosen]; [congruence|]. cbn [Py.is_empty].
  rewrite Hopen, Hos. cbn [String.eqb Ascii.eqb Bool.eqb andb].
  rewrite Hchmod, WindowTable.msg_save_success.
  split; [|reflexivity]. cbn. apply lookup_insert_eq.
Qed.

Lemma generated_key_saved_witness :
  let w' :=
    _save_key Inputs.posix true
      (generation_attempt Cases.age_keygen (init "age-keygen")) in
  files w' !! target_path true "/home/u/id"
  = Some {| content := "AGE-SECRET-KEY-1ABCDEF"; mode := 384 |}
  /\ status_label w' = "File saved successfully".
Proof.
  apply (generated_key_saved Cases.age_keygen Inputs.posix
           (init "age-keygen") "AGE-SECRET-KEY-1ABCDEF" "age1xyz"
           "/home/u/id").
  - vm_compute. do 5 right. left. reflexivity.
  - reflexivity.
  - reflexivity.
  - discriminate.
  - reflexivity.
  - reflexivity.
Defined.

End SavedKey.
